(** * PortfolioAI resume scorer: a shallow embedding of [src/app.py]

    The development follows the source file top to bottom: the Python values
    the program handles (text, bytes, exceptions, JSON values), the strict
    UTF-8 codec behind [bytes.decode("utf-8")], the library calls the program
    makes (PyPDF2, python-docx, Groq, json, pydantic) taken as an interface,
    and then the functions of [app.py] themselves.  The theorems come after
    all definitions. *)

From Stdlib Require Import List String Ascii Bool NArith ZArith Lia PrimFloat.
From Stdlib Require Strings.Byte.
From Stdlib Require Import DecimalString.
Import ListNotations.

Set Warnings "-register-all".

(** ** Python values *)

Module Py.

(** A [str] is a sequence of Unicode code points. *)
Definition str := list N.

(** [bytes] objects. *)
Definition bytes := list Byte.byte.

(** A source literal, written in ASCII. *)
Definition u (s : string) : str := map N_of_ascii (list_ascii_of_string s).

(** The double quote, which the literals above cannot hold. *)
Definition dq : str := [34%N].

Definition quoted (s : str) : str := dq ++ s ++ dq.

(** [a == b] on [str]. *)
Fixpoint str_eqb (a b : str) : bool :=
  match a, b with
  | [], [] => true
  | x :: a', y :: b' => N.eqb x y && str_eqb a' b'
  | _, _ => false
  end.

(** [not s]: the empty string is the only falsy one. *)
Definition falsy (s : str) : bool :=
  match s with
  | [] => true
  | _ :: _ => false
  end.

(** [str.lower] on one code point.  Only the action on the ASCII range is
    modelled: [app.py] compares the lowered extension with the literals
    "pdf", "docx", "doc" and "txt", and no code point outside ASCII lowers
    to one of their letters. *)
Definition lower_cp (c : N) : N :=
  if (65 <=? c)%N && (c <=? 90)%N then (c + 32)%N else c.

Definition lower (s : str) : str := map lower_cp s.

(** [s.split(sep)] for a separator of one code point: never empty. *)
Fixpoint split (sep : N) (s : str) : list str :=
  match s with
  | [] => [[]]
  | c :: r =>
      if N.eqb c sep then [] :: split sep r
      else match split sep r with
           | w :: ws => (c :: w) :: ws
           | [] => [[c]]
           end
  end.

(** [l[-1]] on a list known to be non-empty. *)
Definition last_item (l : list str) : str := last l [].

(** [sep.join(l)]. *)
Fixpoint join (sep : str) (l : list str) : str :=
  match l with
  | [] => []
  | [x] => x
  | x :: rest => x ++ sep ++ join sep rest
  end.

(** The code point of the full stop and of the line feed. *)
Definition dot : N := 46%N.
Definition nl : N := 10%N.

(** In words: the last component of a name is what follows its last full
    stop, and the whole name when it holds none. *)
Inductive last_component : str -> str -> Prop :=
| after_last_dot (p e : str) : ~ In dot e -> last_component (p ++ dot :: e) e
| whole_name (s : str) : ~ In dot s -> last_component s s.

(** An exception other than [HTTPException], as [except Exception as e]
    sees it: its class and [str(e)]. *)
Record PyExc : Type := mkExc { exc_class : str; exc_str : str }.

(** What leaves a function of [app.py]: an [HTTPException] the program
    raised itself, or an exception no handler caught. *)
Inductive exn : Type :=
| HTTPException (status_code : Z) (detail : str)
| Uncaught (e : PyExc).

Inductive result (E A : Type) : Type :=
| Ok (a : A)
| Raise (e : E).
Arguments Ok {E A} a.
Arguments Raise {E A} e.

Definition bind {E A B} (m : result E A) (k : A -> result E B) : result E B :=
  match m with
  | Ok a => k a
  | Raise e => Raise e
  end.

(** [try: body  except Exception as e: raise handler(e)]. *)
Definition try_except {A} (body : result PyExc A) (handler : PyExc -> exn)
  : result exn A :=
  match body with
  | Ok a => Ok a
  | Raise e => Raise (handler e)
  end.

(** An exception that propagates out of a function with no handler. *)
Definition propagate {A} (m : result PyExc A) : result exn A :=
  try_except m Uncaught.

End Py.
Import Py.

Declare Scope py_scope.
Delimit Scope py_scope with py.
Notation "x <- m ;; k" := (bind m (fun x => k))
  (at level 61, m at next level, right associativity) : py_scope.

(** ** The strict UTF-8 codec ([bytes.decode("utf-8")], [str.encode("utf-8")]) *)

Module Utf8.

Local Open Scope N_scope.

Definition is_surrogate (cp : N) : bool := (0xD800 <=? cp) && (cp <=? 0xDFFF).

(** A continuation byte, 10xxxxxx. *)
Definition is_cont (b : N) : bool := (0x80 <=? b) && (b <=? 0xBF).

(** One code point to its bytes (as numbers); [None] for what the strict
    codec refuses to encode: a surrogate, or a value past U+10FFFF. *)
Definition encode_cp (cp : N) : option (list N) :=
  if cp <? 0x80 then Some [cp]
  else if cp <? 0x800 then Some [0xC0 + cp / 64; 0x80 + cp mod 64]
  else if cp <? 0x10000 then
    if is_surrogate cp then None
    else Some [0xE0 + cp / 4096; 0x80 + (cp / 64) mod 64; 0x80 + cp mod 64]
  else if cp <? 0x110000 then
    Some [0xF0 + cp / 262144; 0x80 + (cp / 4096) mod 64;
          0x80 + (cp / 64) mod 64; 0x80 + cp mod 64]
  else None.

Fixpoint encode_N (s : str) : option (list N) :=
  match s with
  | [] => Some []
  | cp :: r =>
      match encode_cp cp, encode_N r with
      | Some bs, Some rest => Some (bs ++ rest)
      | _, _ => None
      end
  end.

(** Strict decoding: overlong forms, surrogates, values past U+10FFFF,
    stray continuation bytes and truncated sequences are all refused, and
    nothing is substituted for them. *)
Fixpoint decode_N (bs : list N) : option str :=
  match bs with
  | [] => Some []
  | b0 :: r0 =>
      if b0 <? 0x80 then option_map (cons b0) (decode_N r0)
      else if b0 <? 0xC2 then None
      else if b0 <? 0xE0 then
        match r0 with
        | b1 :: r1 =>
            if is_cont b1
            then option_map (cons ((b0 - 0xC0) * 64 + (b1 - 0x80))) (decode_N r1)
            else None
        | _ => None
        end
      else if b0 <? 0xF0 then
        match r0 with
        | b1 :: b2 :: r2 =>
            let cp := (b0 - 0xE0) * 4096 + (b1 - 0x80) * 64 + (b2 - 0x80) in
            if is_cont b1 && is_cont b2 && (0x800 <=? cp) && negb (is_surrogate cp)
            then option_map (cons cp) (decode_N r2)
            else None
        | _ => None
        end
      else if b0 <? 0xF5 then
        match r0 with
        | b1 :: b2 :: b3 :: r3 =>
            let cp := (b0 - 0xF0) * 262144 + (b1 - 0x80) * 4096
                      + (b2 - 0x80) * 64 + (b3 - 0x80) in
            if is_cont b1 && is_cont b2 && is_cont b3
               && (0x10000 <=? cp) && (cp <? 0x110000)
            then option_map (cons cp) (decode_N r3)
            else None
        | _ => None
        end
      else None
  end.

Definition byte_of_N (n : N) : Byte.byte :=
  match Byte.of_N n with
  | Some b => b
  | None => Byte.x00
  end.

(** [s.encode("utf-8")]. *)
Definition encode (s : str) : option bytes :=
  option_map (map byte_of_N) (encode_N s).

(** [b.decode("utf-8")], with the default [errors="strict"]. *)
Definition decode (b : bytes) : option str :=
  decode_N (map Byte.to_N b).

End Utf8.

(** ** JSON values, as [json.loads] returns them *)

Module Json.

Inductive json : Type :=
| JNull
| JBool (b : bool)
| JInt (z : Z)
| JFloat (f : float)
| JStr (s : str)
| JList (l : list json)
| JDict (d : list (str * json)).

(** A [dict] with [str] keys, in insertion order; a key occurs once. *)
Definition dict := list (str * json).

Fixpoint dict_get (d : dict) (key : str) : option json :=
  match d with
  | [] => None
  | (k, v) :: rest => if str_eqb k key then Some v else dict_get rest key
  end.

Definition KeyError (key : str) : PyExc :=
  mkExc (u "KeyError") (u "'" ++ key ++ u "'").

Definition TypeError (msg : string) : PyExc := mkExc (u "TypeError") (u msg).

Definition IndexError (msg : string) : PyExc := mkExc (u "IndexError") (u msg).

(** [obj[key]] with a [str] key: only a [dict] that holds the key answers. *)
Definition getitem (obj : json) (key : str) : result PyExc json :=
  match obj with
  | JDict d =>
      match dict_get d key with
      | Some v => Ok v
      | None => Raise (KeyError key)
      end
  | JList _ => Raise (TypeError "list indices must be integers or slices, not str")
  | JStr _ => Raise (TypeError "string indices must be integers, not 'str'")
  | JNull => Raise (TypeError "'NoneType' object is not subscriptable")
  | JBool _ => Raise (TypeError "'bool' object is not subscriptable")
  | JInt _ => Raise (TypeError "'int' object is not subscriptable")
  | JFloat _ => Raise (TypeError "'float' object is not subscriptable")
  end.

End Json.
Import Json.

(** ** The objects [app.py] exchanges with its libraries *)

(** A page of a [PyPDF2.PdfReader]: [page.extract_text()]. *)
Record PageObject : Type := { extract_text : result PyExc str }.

(** A paragraph of a [docx.Document]: [paragraph.text]. *)
Record Paragraph : Type := { text : str }.

(** The arguments of [groq_client.chat.completions.create]: the messages as
    (role, content) pairs, the model, and the type of [response_format]. *)
Record ChatRequest : Type :=
  { messages : list (str * str); model : str; response_format : str }.

(** [choice.message.content] is optional in the provider's reply. *)
Record Choice : Type := { message_content : option str }.

Record ChatCompletion : Type := { choices : list Choice }.

(** [class ResumeScore(BaseModel)]: [score: int], [feedback: Dict[str, Any]]. *)
Record ResumeScore : Type := { score : Z; feedback : dict }.

(** A [fastapi.UploadFile]: its declared name and what [await file.read()]
    returns. *)
Record UploadFile : Type := { filename : str; read : bytes }.

(** What the interpreter and the imported libraries do is not in [app.py]:
    it is taken as an interface.  The two laws are what pydantic guarantees
    whatever its version and mode: an [int] field takes a Python [int] as it
    is, a [Dict[str, Any]] field takes a [dict] with [str] keys as it is. *)
Record Libraries : Type :=
  { (** the constructor [PyPDF2.PdfReader(stream)]: the reader, given by its
        [pages], or the error of a stream it cannot parse *)
    PdfReader : bytes -> result PyExc (list PageObject);
    (** what [with reader as pdf_reader] raises for a reader: the class
        [PyPDF2.PdfReader] defines neither [__enter__] nor [__exit__], so
        the statement fails before its body runs (a [TypeError] since
        Python 3.11, an [AttributeError] before) *)
    PdfReader_enter : PyExc;
    (** [docx.Document(io.BytesIO(b)).paragraphs] *)
    Document : bytes -> result PyExc (list Paragraph);
    (** one call of [groq_client.chat.completions.create]; the client is
        built with the defaults of the SDK, retries included, so one call
        may stand for several requests on the wire *)
    chat_completions_create : ChatRequest -> result PyExc ChatCompletion;
    json_loads : str -> result PyExc json;
    (** [str(e)] of the [UnicodeDecodeError] for bytes that do not decode *)
    decode_error_str : bytes -> str;
    (** pydantic's validators of the two field types, and [str(e)] of its
        [ValidationError] *)
    validate_int : json -> option Z;
    validate_dict : json -> option dict;
    validation_error_str : json -> json -> str;
    validate_int_int : forall z, validate_int (JInt z) = Some z;
    validate_dict_dict : forall d, validate_dict (JDict d) = Some d }.

(** The calls of [chat.completions.create] made so far, oldest first, each
    recorded by its arguments, are the only state [app.py] touches after
    start-up.  A call is what [app.py] does; how many requests the client
    puts on the wire for one call is the client's business. *)
Definition Net (E A : Type) : Type :=
  list ChatRequest -> result E A * list ChatRequest.

Module NetMonad.

Definition ret {E A} (a : A) : Net E A := fun log => (Ok a, log).

Definition lift {E A} (m : result E A) : Net E A := fun log => (m, log).

Definition bind {E A B} (m : Net E A) (k : A -> Net E B) : Net E B :=
  fun log =>
    match m log with
    | (Ok a, log') => k a log'
    | (Raise e, log') => (Raise e, log')
    end.

(** [try: body  except Exception as e: raise handler(e)]; what was sent
    stays sent. *)
Definition try_except {A} (body : Net PyExc A) (handler : PyExc -> exn)
  : Net exn A :=
  fun log =>
    match body log with
    | (Ok a, log') => (Ok a, log')
    | (Raise e, log') => (Raise (handler e), log')
    end.

End NetMonad.

Declare Scope net_scope.
Delimit Scope net_scope with net.
Notation "x <- m ;; k" := (NetMonad.bind m (fun x => k))
  (at level 61, m at next level, right associativity) : net_scope.

(** ** [src/app.py] *)

Section App.

(** The process environment once [load_dotenv()] has run, and the
    libraries. *)
Variable environ : list (str * str).
Variable L : Libraries.

(** [key in os.environ] and [os.environ[key]]. *)
Fixpoint environ_lookup (env : list (str * str)) (key : str) : option str :=
  match env with
  | [] => None
  | (k, v) :: rest => if str_eqb k key then Some v else environ_lookup rest key
  end.

(** [os.environ.get(key, default)]. *)
Definition environ_get (env : list (str * str)) (key default : str) : str :=
  match environ_lookup env key with
  | Some v => v
  | None => default
  end.

Definition GROQ_API_KEY : str := environ_get environ (u "GROQ_API_KEY") (u "").

Definition LLM_MODEL : str := u "meta-llama/llama-4-maverick-17b-128e-instruct".

(** [ResumeScore(score=..., feedback=...)]: pydantic validates each field
    and raises one [ValidationError] when any of them fails. *)
Definition ResumeScore_init (score_arg feedback_arg : json)
  : result PyExc ResumeScore :=
  match validate_int L score_arg, validate_dict L feedback_arg with
  | Some s, Some f => Ok {| score := s; feedback := f |}
  | _, _ =>
      Raise (mkExc (u "ValidationError")
               (validation_error_str L score_arg feedback_arg))
  end.

(** The loop [for page in pdf_reader.pages: text += page.extract_text()]. *)
Fixpoint pages_loop (pages : list PageObject) (text : str) : result PyExc str :=
  match pages with
  | [] => Ok text
  | page :: rest =>
      (t <- extract_text page ;; pages_loop rest (text ++ t))%py
  end.

(** [with reader as pdf_reader]: the body never gets its [pdf_reader]. *)
Definition with_PdfReader (reader : list PageObject)
  : result PyExc (list PageObject) :=
  Raise (PdfReader_enter L).

(** The reader is built first; the [with] statement then looks for its
    [__enter__], inside the [try]. *)
Definition extract_text_from_pdf (file_content : bytes) : result exn str :=
  try_except
    (reader <- PdfReader L file_content ;;
     pdf_reader_pages <- with_PdfReader reader ;;
     pages_loop pdf_reader_pages (u ""))%py
    (fun e => HTTPException 400
                (u "Error extracting text from PDF: " ++ exc_str e)).

Definition extract_text_from_docx (file_content : bytes) : result exn str :=
  try_except
    (paragraphs <- Document L file_content ;;
     Ok (join [nl] (map text paragraphs)))%py
    (fun e => HTTPException 400
                (u "Error extracting text from DOCX: " ++ exc_str e)).

(** [file_content.decode("utf-8")]. *)
Definition bytes_decode (file_content : bytes) : result PyExc str :=
  match Utf8.decode file_content with
  | Some s => Ok s
  | None =>
      Raise (mkExc (u "UnicodeDecodeError") (decode_error_str L file_content))
  end.

Definition file_extension_of (name : str) : str :=
  lower (last_item (split dot name)).

Definition extract_text_from_resume (file : UploadFile) : result exn str :=
  let file_content := read file in
  let file_extension := file_extension_of (filename file) in
  if str_eqb file_extension (u "pdf") then
    extract_text_from_pdf file_content
  else if existsb (str_eqb file_extension) [u "docx"; u "doc"] then
    extract_text_from_docx file_content
  else if str_eqb file_extension (u "txt") then
    propagate (bytes_decode file_content)
  else
    Raise (HTTPException 400
             (u "Unsupported file format. Please upload PDF, DOCX, or TXT file.")).

Definition mock_score : ResumeScore :=
  {| score := 75;
     feedback :=
       [ (u "strengths",
           JList [JStr (u "Strong education section");
                  JStr (u "Good experience details")]);
         (u "weaknesses",
           JList [JStr (u "Missing quantifiable achievements");
                  JStr (u "Too verbose")]);
         (u "improvements",
           JList [JStr (u "Add metrics to achievements");
                  JStr (u "Be more concise");
                  JStr (u "Consider adding skills section")]) ] |}.

Definition line (s : str) : str := s ++ [nl].

(** The f-string of [score_resume] up to [{resume_text}], and after it. *)
Definition prompt_head : str :=
  line (u "")
  ++ line (u "        I have a resume that I'd like you to evaluate. Please analyze it carefully and provide:")
  ++ line (u "        ")
  ++ line (u "        1. A numerical score from 0-100 reflecting the overall quality")
  ++ line (u "        2. Key strengths (at least 3)")
  ++ line (u "        3. Areas for improvement (at least 3)")
  ++ line (u "        4. Specific, actionable suggestions for making this resume more effective")
  ++ line (u "        ")
  ++ line (u "        Focus on factors like: clarity, quantifiable achievements, relevance, formatting consistency, use of action verbs, ")
  ++ line (u "        and overall impact. Please format your response as a JSON object with the following structure:")
  ++ line (u "        {")
  ++ line (u "            " ++ quoted (u "score") ++ u ": (numerical score),")
  ++ line (u "            " ++ quoted (u "feedback") ++ u ": {")
  ++ line (u "                " ++ quoted (u "strengths") ++ u ": [(list of strengths)],")
  ++ line (u "                " ++ quoted (u "weaknesses") ++ u ": [(list of weaknesses)],")
  ++ line (u "                " ++ quoted (u "improvements") ++ u ": [(list of specific suggestions)]")
  ++ line (u "            }")
  ++ line (u "        }")
  ++ line (u "        ")
  ++ line (u "        Here's the resume text:")
  ++ u "        ".

Definition prompt_tail : str := line (u "") ++ u "        ".

Definition system_message : str :=
  u "You are an expert resume reviewer with years of HR and recruiting experience.".

Definition chat_request (resume_text : str) : ChatRequest :=
  {| messages :=
       [ (u "system", system_message);
         (u "user", prompt_head ++ resume_text ++ prompt_tail) ];
     model := LLM_MODEL;
     response_format := u "json_object" |}.

(** [groq_client.chat.completions.create(...)]: the call is made, and is
    recorded, whatever comes back. *)
Definition create (req : ChatRequest) : Net PyExc ChatCompletion :=
  fun log => (chat_completions_create L req, log ++ [req]).

(** [response.choices[0]]. *)
Definition first_choice (response : ChatCompletion) : result PyExc Choice :=
  match choices response with
  | c :: _ => Ok c
  | [] => Raise (IndexError "list index out of range")
  end.

(** [json.loads(result)], where [result] may be [None]. *)
Definition loads (content : option str) : result PyExc json :=
  match content with
  | Some s => json_loads L s
  | None =>
      Raise (TypeError
               "the JSON object must be str, bytes or bytearray, not NoneType")
  end.

(** [ResumeScore(score=result_json["score"], feedback=result_json["feedback"])]:
    the two subscripts are evaluated first, in this order, then the model
    is built. *)
Definition ResumeScore_of (result_json : json) : result PyExc ResumeScore :=
  (score_arg <- getitem result_json (u "score") ;;
   feedback_arg <- getitem result_json (u "feedback") ;;
   ResumeScore_init score_arg feedback_arg)%py.

(** The body of the [try] block of [score_resume]. *)
Definition score_resume_body (resume_text : str) : Net PyExc ResumeScore :=
  (response <- create (chat_request resume_text) ;;
   choice <- NetMonad.lift (first_choice response) ;;
   let result := message_content choice in
   result_json <- NetMonad.lift (loads result) ;;
   NetMonad.lift (ResumeScore_of result_json))%net.

(** What the [try] block makes of the service's answer, once the request
    is out. *)
Definition of_reply (reply : result PyExc ChatCompletion)
  : result PyExc ResumeScore :=
  (response <- reply ;;
   choice <- first_choice response ;;
   result_json <- loads (message_content choice) ;;
   ResumeScore_of result_json)%py.

(** The handler of that block: [HTTPException(status_code=500, ...)]. *)
Definition scoring_error (e : PyExc) : exn :=
  HTTPException 500 (u "Error scoring resume: " ++ exc_str e).

Definition score_resume (resume_text : str) : Net exn ResumeScore :=
  if falsy GROQ_API_KEY then
    NetMonad.ret mock_score
  else
    NetMonad.try_except (score_resume_body resume_text) scoring_error.

(** [POST /score-resume/]. *)
Definition score_resume_api (file : UploadFile) : Net exn ResumeScore :=
  (resume_text <- NetMonad.lift (extract_text_from_resume file) ;;
   score_resume resume_text)%net.

(** The model service answered the request for [resume_text], and the
    content of the first choice parsed to [payload]. *)
Definition provider_payload (resume_text : str) (payload : json) : Prop :=
  exists response choice others content,
    chat_completions_create L (chat_request resume_text) = Ok response
    /\ choices response = choice :: others
    /\ message_content choice = Some content
    /\ json_loads L content = Ok payload.

End App.

(** A credential is configured: [GROQ_API_KEY] is truthy. *)
Definition live (environ : list (str * str)) : Prop :=
  falsy (GROQ_API_KEY environ) = false.

(** ** Stand-ins for the libraries

    Small instances of the interface, so that the program can be run on
    concrete inputs: validators that take a value of the exact type only, a
    parser given by a table of the texts it knows, and fixed documents and
    replies. *)

Module Fixture.

Definition exact_int (j : json) : option Z :=
  match j with
  | JInt z => Some z
  | _ => None
  end.

Definition exact_dict (j : json) : option dict :=
  match j with
  | JDict d => Some d
  | _ => None
  end.

Definition JSONDecodeError : PyExc :=
  mkExc (u "JSONDecodeError") (u "Expecting value: line 1 column 1 (char 0)").

Fixpoint loads_table (table : list (str * json)) (s : str) : result PyExc json :=
  match table with
  | [] => Raise JSONDecodeError
  | (t, j) :: rest => if str_eqb t s then Ok j else loads_table rest s
  end.

Definition libraries
  (pdf : bytes -> result PyExc (list PageObject))
  (docx : bytes -> result PyExc (list Paragraph))
  (service : ChatRequest -> result PyExc ChatCompletion)
  (table : list (str * json)) : Libraries :=
  {| PdfReader := pdf;
     PdfReader_enter :=
       TypeError "'PdfReader' object does not support the context manager protocol";
     Document := docx;
     chat_completions_create := service;
     json_loads := loads_table table;
     decode_error_str := fun _ => u "'utf-8' codec can't decode bytes";
     validate_int := exact_int;
     validate_dict := exact_dict;
     validation_error_str := fun _ _ => u "validation error for ResumeScore";
     validate_int_int := fun z => eq_refl;
     validate_dict_dict := fun d => eq_refl |}.

Definition PdfReadError : PyExc :=
  mkExc (u "PdfReadError") (u "EOF marker not found").

Definition PackageNotFoundError : PyExc :=
  mkExc (u "PackageNotFoundError") (u "Package not found").

Definition APIConnectionError : PyExc :=
  mkExc (u "APIConnectionError") (u "Connection error.").

(** A service that answers every request with one choice holding [content]. *)
Definition replies (content : str) : ChatRequest -> result PyExc ChatCompletion :=
  fun _ => Ok {| choices := [ {| message_content := Some content |} ] |}.

(** No document parses and the service is unreachable: enough for the
    paths that use neither. *)
Definition offline : Libraries :=
  libraries (fun _ => Raise PdfReadError) (fun _ => Raise PackageNotFoundError)
    (fun _ => Raise APIConnectionError) [].

(** The service replies [content], which parses to [payload]. *)
Definition answering (content : str) (payload : json) : Libraries :=
  libraries (fun _ => Raise PdfReadError) (fun _ => Raise PackageNotFoundError)
    (replies content) [(content, payload)].

(** Every PDF has the pages [pages], every flow document the paragraphs
    [paragraphs]. *)
Definition documents (pages : list PageObject) (paragraphs : list Paragraph)
  : Libraries :=
  libraries (fun _ => Ok pages) (fun _ => Ok paragraphs)
    (fun _ => Raise APIConnectionError) [].

Definition page (t : string) : PageObject := {| extract_text := Ok (u t) |}.

Definition paragraph (t : string) : Paragraph := {| text := u t |}.

(** An environment with a credential, and one without. *)
Definition with_key : list (str * str) := [(u "GROQ_API_KEY", u "gsk_test")].
Definition without_key : list (str * str) := [(u "HOME", u "/root")].
Definition empty_key : list (str * str) := [(u "GROQ_API_KEY", u "")].

Definition upload (name : string) (content : bytes) : UploadFile :=
  {| filename := u name; read := content |}.

Definition text_full : str :=
  u "{" ++ quoted (u "score") ++ u ":82," ++ quoted (u "feedback") ++ u ":{"
  ++ quoted (u "strengths") ++ u ":[" ++ quoted (u "a") ++ u "],"
  ++ quoted (u "weaknesses") ++ u ":[],"
  ++ quoted (u "improvements") ++ u ":[" ++ quoted (u "b") ++ u ","
  ++ quoted (u "c") ++ u "]}}".

(** [{"score":82,"feedback":{"strengths":["a"],"weaknesses":[],
    "improvements":["b","c"]}}] *)
Definition payload_full : json :=
  JDict [ (u "score", JInt 82);
          (u "feedback",
            JDict [ (u "strengths", JList [JStr (u "a")]);
                    (u "weaknesses", JList []);
                    (u "improvements", JList [JStr (u "b"); JStr (u "c")]) ]) ].

(** [{"score":82,"feedback":{"strengths":["a"]}}], parsed and as text. *)
Definition payload_partial : json :=
  JDict [ (u "score", JInt 82);
          (u "feedback", JDict [ (u "strengths", JList [JStr (u "a")]) ]) ].

Definition text_partial : str :=
  u "{" ++ quoted (u "score") ++ u ":82," ++ quoted (u "feedback") ++ u ":{"
  ++ quoted (u "strengths") ++ u ":[" ++ quoted (u "a") ++ u "]}}".

(** [{"score":150,"feedback":{}}] *)
Definition payload_150 : json :=
  JDict [ (u "score", JInt 150); (u "feedback", JDict []) ].

Definition text_150 : str :=
  u "{" ++ quoted (u "score") ++ u ":150," ++ quoted (u "feedback") ++ u ":{}}".

(** [{"feedback":{}}] *)
Definition payload_no_score : json := JDict [ (u "feedback", JDict []) ].

Definition text_no_score : str := u "{" ++ quoted (u "feedback") ++ u ":{}}".

End Fixture.

(** ** The Gradio widget ([gradio_score_resume]) *)

Module Gradio.

(** The file object Gradio hands over: [file.name] is the path of the
    upload on disk. *)
Record File : Type := { name : str }.

(** What the widget needs besides [Libraries]: the files on disk as the
    libraries and [open] see them, the text of a value inside an f-string
    (a [str] is inserted as it is), and [str(e)] of an [HTTPException]. *)
Record Desktop : Type :=
  { (** [open(path, 'rb')], [PyPDF2.PdfReader(pdf_file)], then its [pages] *)
    open_pdf : str -> result PyExc (list PageObject);
    (** [docx.Document(path).paragraphs] *)
    open_docx : str -> result PyExc (list Paragraph);
    (** the bytes behind [open(path, 'r', encoding='utf-8')] *)
    open_text : str -> result PyExc bytes;
    (** [str(e)] of the [UnicodeDecodeError] of [f.read()] *)
    read_error_str : bytes -> str;
    format_value : json -> str;
    http_exception_str : Z -> str -> str;
    format_value_str : forall s, format_value (JStr s) = s }.

(** The carriage return. *)
Definition cr : N := 13%N.

(** Reading in text mode with the default [newline=None]: a carriage return
    followed by a line feed, and a carriage return alone, both come out as
    one line feed. *)
Fixpoint universal_newlines (s : str) : str :=
  match s with
  | [] => []
  | c :: r =>
      if N.eqb c cr then
        match r with
        | d :: r' => if N.eqb d nl then nl :: universal_newlines r'
                     else nl :: universal_newlines r
        | [] => [nl]
        end
      else c :: universal_newlines r
  end.

(** [for s in value]: the items of a list, the characters of a [str], the
    keys of a [dict]; nothing else can be iterated. *)
Definition iter (value : json) : result PyExc (list json) :=
  match value with
  | JList l => Ok l
  | JStr s => Ok (map (fun c => JStr [c]) s)
  | JDict d => Ok (map (fun kv => JStr (fst kv)) d)
  | JNull => Raise (TypeError "'NoneType' object is not iterable")
  | JBool _ => Raise (TypeError "'bool' object is not iterable")
  | JInt _ => Raise (TypeError "'int' object is not iterable")
  | JFloat _ => Raise (TypeError "'float' object is not iterable")
  end.

(** [str(n)] for an [int]. *)
Definition str_of_int (z : Z) : str := u (NilZero.string_of_int (Z.to_int z)).

(** The f-string [feedback_text]. *)
Definition feedback_text (score_text strengths weaknesses improvements : str) : str :=
  line (u "")
  ++ line (u "        ## Resume Score: " ++ score_text ++ u "/100")
  ++ line (u "        ")
  ++ line (u "        ### Strengths:")
  ++ line (u "        " ++ strengths)
  ++ line (u "        ")
  ++ line (u "        ### Areas for Improvement:")
  ++ line (u "        " ++ weaknesses)
  ++ line (u "        ")
  ++ line (u "        ### Specific Recommendations:")
  ++ line (u "        " ++ improvements)
  ++ u "        ".

Definition unsupported_text : str :=
  u "Unsupported file format. Please upload PDF, DOCX, or TXT file.".

(** The handler [except Exception as e]. *)
Definition processing_error (message : str) : option Z * str :=
  (None, u "Error processing resume: " ++ message).

Section Widget.

Variable environ : list (str * str).
Variable L : Libraries.
Variable D : Desktop.

(** [open(path, 'r', encoding='utf-8')] and [f.read()]. *)
Definition read_text (path : str) : result PyExc str :=
  (b <- open_text D path ;;
   match Utf8.decode b with
   | Some s => Ok (universal_newlines s)
   | None => Raise (mkExc (u "UnicodeDecodeError") (read_error_str D b))
   end)%py.

(** The branches on [file_extension]; [None] stands for the early return
    on an unsupported format. *)
Definition read_resume (path : str) : result PyExc (option str) :=
  let file_extension := file_extension_of path in
  if str_eqb file_extension (u "pdf") then
    (pages <- open_pdf D path ;;
     t <- pages_loop pages (u "") ;;
     Ok (Some t))%py
  else if existsb (str_eqb file_extension) [u "docx"; u "doc"] then
    (paragraphs <- open_docx D path ;;
     Ok (Some (join [nl] (map text paragraphs))))%py
  else if str_eqb file_extension (u "txt") then
    (t <- read_text path ;; Ok (Some t))%py
  else
    Ok None.

(** ["\n".join([f"- {s}" for s in result.feedback[key]])], [scored] being
    the [result] of the source. *)
Definition bullets (scored : ResumeScore) (key : str) : result PyExc str :=
  (value <- getitem (JDict (feedback scored)) key ;;
   items <- iter value ;;
   Ok (join [nl] (map (fun s => u "- " ++ format_value D s) items)))%py.

(** From [strengths = ...] to [return result.score, feedback_text]. *)
Definition display (scored : ResumeScore) : result PyExc (Z * str) :=
  (strengths <- bullets scored (u "strengths") ;;
   weaknesses <- bullets scored (u "weaknesses") ;;
   improvements <- bullets scored (u "improvements") ;;
   Ok (score scored,
       feedback_text (str_of_int (score scored)) strengths weaknesses improvements))%py.

(** [str(e)] for what [score_resume] raises. *)
Definition str_exn (e : exn) : str :=
  match e with
  | HTTPException status_code detail => http_exception_str D status_code detail
  | Uncaught e' => exc_str e'
  end.

Definition gradio_score_resume (file : option File)
  : list ChatRequest -> (option Z * str) * list ChatRequest :=
  fun log =>
    match file with
    | None =>
        (processing_error (u "'NoneType' object has no attribute 'name'"), log)
    | Some f =>
        match read_resume (name f) with
        | Raise e => (processing_error (exc_str e), log)
        | Ok None => ((None, unsupported_text), log)
        | Ok (Some resume_text) =>
            match score_resume environ L resume_text log with
            | (Raise e, log') => (processing_error (str_exn e), log')
            | (Ok scored, log') =>
                match display scored with
                | Ok (n, feedback) => ((Some n, feedback), log')
                | Raise e => (processing_error (exc_str e), log')
                end
            end
        end
    end.

End Widget.

(** A desktop holding one file of each kind, for running the widget;
    [str(e)] of an [HTTPException] is Starlette's, the status, a colon and
    the detail. *)
Definition desk (pages : list PageObject) (paragraphs : list Paragraph)
  (content : bytes) : Desktop :=
  {| open_pdf := fun _ => Ok pages;
     open_docx := fun _ => Ok paragraphs;
     open_text := fun _ => Ok content;
     read_error_str := fun _ => u "'utf-8' codec can't decode bytes";
     format_value := fun v => match v with JStr s => s | _ => u "?" end;
     http_exception_str :=
       fun status_code detail => str_of_int status_code ++ u ": " ++ detail;
     format_value_str := fun s => eq_refl |}.

End Gradio.

(** [{"score":82,"feedback":{}}], parsed and as text: a reply with a score
    and no feedback item at all. *)
Definition payload_no_items : json :=
  JDict [ (u "score", JInt 82); (u "feedback", JDict []) ].

Definition text_no_items : str :=
  u "{" ++ quoted (u "score") ++ u ":82," ++ quoted (u "feedback") ++ u ":{}}".

(** A Unicode scalar value: a code point up to U+10FFFF that is not a
    surrogate. *)
Definition scalar (cp : N) : Prop :=
  (cp < 0x110000)%N /\ Utf8.is_surrogate cp = false.

(** * Facts about the Python operations *)

Module PyFacts.

Lemma str_eqb_eq (a b : str) : str_eqb a b = true <-> a = b.
Proof.
  revert b; induction a as [|x a IH]; destruct b as [|y b]; simpl;
    try (split; [discriminate | congruence]); try tauto.
  rewrite andb_true_iff, N.eqb_eq, IH.
  split; [intros [-> ->]; reflexivity | intros E; injection E; auto].
Qed.

Lemma str_eqb_refl (a : str) : str_eqb a a = true.
Proof. apply str_eqb_eq; reflexivity. Qed.

Lemma str_eqb_neq (a b : str) : str_eqb a b = false <-> a <> b.
Proof.
  rewrite <- str_eqb_eq.
  destruct (str_eqb a b); split; congruence.
Qed.

Lemma split_not_nil (sep : N) (s : str) : split sep s <> [].
Proof.
  destruct s as [|c r]; simpl; [discriminate|].
  destruct (N.eqb c sep); [discriminate|].
  destruct (split sep r); discriminate.
Qed.

(** Without the separator there is nothing to split. *)
Lemma split_no_sep (sep : N) (s : str) : ~ In sep s -> split sep s = [s].
Proof.
  induction s as [|c r IH]; simpl; intros H; [reflexivity|].
  destruct (N.eqb_spec c sep) as [E|_]; [tauto|].
  rewrite IH by tauto; reflexivity.
Qed.

(** Splitting distributes over an occurrence of the separator. *)
Lemma split_app_sep (sep : N) (p e : str) :
  split sep (p ++ sep :: e) = split sep p ++ split sep e.
Proof.
  induction p as [|c p IH]; simpl.
  - rewrite N.eqb_refl; reflexivity.
  - destruct (N.eqb c sep); [rewrite IH; reflexivity|].
    rewrite IH.
    pose proof (split_not_nil sep p) as Hne.
    destruct (split sep p); [congruence | reflexivity].
Qed.

Lemma last_app_not_nil (l1 l2 : list str) :
  l2 <> [] -> last (l1 ++ l2) [] = last l2 [].
Proof.
  intros H; induction l1 as [|x l1 IH]; simpl; [reflexivity|].
  rewrite IH.
  destruct (l1 ++ l2) eqn:E; [|reflexivity].
  apply app_eq_nil in E; tauto.
Qed.

Lemma last_split_no_sep (sep : N) (s : str) :
  ~ In sep s -> last_item (split sep s) = s.
Proof. intros H; unfold last_item; rewrite split_no_sep by exact H; reflexivity. Qed.

Lemma last_split_after_sep (sep : N) (p e : str) :
  ~ In sep e -> last_item (split sep (p ++ sep :: e)) = e.
Proof.
  intros H; unfold last_item.
  rewrite split_app_sep, last_app_not_nil by apply split_not_nil.
  apply last_split_no_sep, H.
Qed.

(** Splitting on the separator undoes joining with it, as long as no item
    holds the separator. *)
Lemma split_join (sep : N) (l : list str) :
  l <> [] -> (forall x, In x l -> ~ In sep x) ->
  split sep (join [sep] l) = l.
Proof.
  induction l as [|x l IH]; [congruence|]; intros _ H.
  destruct l as [|y l].
  - simpl; apply split_no_sep, H; left; reflexivity.
  - change (join [sep] (x :: y :: l)) with (x ++ sep :: join [sep] (y :: l)).
    rewrite split_app_sep, IH, split_no_sep.
    + reflexivity.
    + apply H; left; reflexivity.
    + discriminate.
    + intros z Hz; apply H; right; exact Hz.
Qed.

Lemma join_length (sep : str) (l : list str) :
  List.length (join sep l)
  = list_sum (map (@List.length N) l) + List.length sep * (List.length l - 1).
Proof.
  induction l as [|x l IH]; [simpl; lia|].
  destruct l as [|y l]; [simpl; lia|].
  change (join sep (x :: y :: l)) with (x ++ sep ++ join sep (y :: l)).
  rewrite !length_app, IH; simpl; lia.
Qed.

End PyFacts.

(** * The UTF-8 codec: decoding inverts encoding, and nothing else decodes *)

Module Utf8Facts.
Import Utf8.

Local Open Scope N_scope.

Ltac tests :=
  repeat match goal with
    | H : (_ && _)%bool = true |- _ => apply andb_true_iff in H; destruct H
    | H : negb _ = true |- _ => apply negb_true_iff in H
    | H : (_ <? _) = true |- _ => apply N.ltb_lt in H
    | H : (_ <? _) = false |- _ => apply N.ltb_ge in H
    | H : (_ <=? _) = true |- _ => apply N.leb_le in H
    | H : (_ <=? _) = false |- _ => apply N.leb_gt in H
    end.

Lemma some_eq {A} (a b : A) : Some a = Some b -> a = b.
Proof. intros E; injection E; auto. Qed.

Ltac written bs :=
  let E := fresh "E" in intros E; apply some_eq in E; subst bs.

(** Name the base-64 digits of [cp] and record how they make it up. *)
Ltac divmod cp :=
  replace (cp / 4096) with (cp / 64 / 64) in *
    by (rewrite N.Div0.div_div; reflexivity);
  replace (cp / 262144) with (cp / 64 / 64 / 64) in *
    by (rewrite !N.Div0.div_div; reflexivity);
  pose proof (N.div_mod cp 64 ltac:(discriminate));
  pose proof (N.mod_lt cp 64 ltac:(discriminate));
  pose proof (N.div_mod (cp / 64) 64 ltac:(discriminate));
  pose proof (N.mod_lt (cp / 64) 64 ltac:(discriminate));
  pose proof (N.div_mod (cp / 64 / 64) 64 ltac:(discriminate));
  pose proof (N.mod_lt (cp / 64 / 64) 64 ltac:(discriminate));
  let q1 := fresh "q" in
  let q2 := fresh "q" in
  let q3 := fresh "q" in
  generalize dependent (cp mod 64);
  generalize dependent (cp / 64); intros q1;
  generalize dependent (q1 mod 64);
  generalize dependent (q1 / 64); intros q2;
  generalize dependent (q2 mod 64);
  generalize dependent (q2 / 64); intros q3;
  intros.

Ltac bounded := solve [repeat (constructor; [cbv beta; lia|]); constructor].

Lemma is_cont_true (b : N) : is_cont b = true <-> 0x80 <= b <= 0xBF.
Proof. unfold is_cont; rewrite andb_true_iff, !N.leb_le; tauto. Qed.

Lemma is_surrogate_false (cp : N) :
  is_surrogate cp = false <-> cp < 0xD800 \/ 0xDFFF < cp.
Proof.
  unfold is_surrogate; rewrite andb_false_iff, !N.leb_gt; tauto.
Qed.

Lemma ltb_true (a b : N) : a < b -> (a <? b) = true.
Proof. apply N.ltb_lt. Qed.

Lemma ltb_false (a b : N) : b <= a -> (a <? b) = false.
Proof. apply N.ltb_ge. Qed.

Lemma leb_true (a b : N) : a <= b -> (a <=? b) = true.
Proof. apply N.leb_le. Qed.

(** Every byte the encoder writes fits in a byte. *)
Lemma encode_cp_bytes (cp : N) (bs : list N) :
  encode_cp cp = Some bs -> Forall (fun b => b < 256) bs.
Proof.
  unfold encode_cp.
  destruct (cp <? 0x80) eqn:T1; [written bs; tests; bounded|].
  destruct (cp <? 0x800) eqn:T2; [written bs; tests; divmod cp; bounded|].
  destruct (cp <? 0x10000) eqn:T3.
  { destruct (is_surrogate cp); [intros E; discriminate E|].
    written bs; tests; divmod cp; bounded. }
  destruct (cp <? 0x110000) eqn:T4; [|intros E; discriminate E].
  written bs; tests; divmod cp; bounded.
Qed.

(** Settle every test of the decoder that arithmetic decides. *)
Ltac settle :=
  repeat (match goal with
          | |- context [?a <? ?b] =>
              first [rewrite (@ltb_true a b) by lia | rewrite (@ltb_false a b) by lia]
          | |- context [?a <=? ?b] => rewrite (@leb_true a b) by lia
          | |- context [is_cont ?b] => rewrite (proj2 (is_cont_true b)) by lia
          | |- context [is_surrogate ?c] =>
              rewrite (proj2 (is_surrogate_false c)) by lia
          end; cbv beta iota).

Lemma decode_encode_cp (cp : N) (bs rest : list N) :
  encode_cp cp = Some bs ->
  decode_N (bs ++ rest) = option_map (cons cp) (decode_N rest).
Proof.
  unfold encode_cp.
  destruct (cp <? 0x80) eqn:T1.
  { written bs; tests; cbn [app decode_N]; settle; reflexivity. }
  destruct (cp <? 0x800) eqn:T2.
  { written bs; tests; divmod cp; cbn [app decode_N]; settle.
    do 2 f_equal; lia. }
  destruct (cp <? 0x10000) eqn:T3.
  { destruct (is_surrogate cp) eqn:T4; [intros E; discriminate E|].
    apply is_surrogate_false in T4.
    written bs; tests; divmod cp; cbn [app decode_N]; cbv zeta; settle.
    cbn [andb negb]; do 2 f_equal; lia. }
  destruct (cp <? 0x110000) eqn:T4; [|intros E; discriminate E].
  written bs; tests; divmod cp; cbn [app decode_N]; cbv zeta; settle.
  cbn [andb]; do 2 f_equal; lia.
Qed.

Lemma decode_encode_N (s : str) (bs : list N) :
  encode_N s = Some bs -> decode_N bs = Some s.
Proof.
  revert bs; induction s as [|cp s IH]; intros bs; cbn [encode_N].
  - written bs; reflexivity.
  - destruct (encode_cp cp) as [hd|] eqn:Ecp; [|intros E; discriminate E].
    destruct (encode_N s) as [tl|]; [|intros E; discriminate E].
    written bs.
    rewrite (@decode_encode_cp cp hd tl Ecp), (IH tl eq_refl); reflexivity.
Qed.

(** The well-formed sequences of each length are the encoder's output. *)
Lemma encode_cp_1 (b0 : N) : b0 < 0x80 -> encode_cp b0 = Some [b0].
Proof. intros H; unfold encode_cp; settle; reflexivity. Qed.

Lemma encode_cp_2 (b0 b1 : N) :
  0xC2 <= b0 < 0xE0 -> 0x80 <= b1 <= 0xBF ->
  encode_cp ((b0 - 0xC0) * 64 + (b1 - 0x80)) = Some [b0; b1].
Proof.
  intros H0 H1.
  remember ((b0 - 0xC0) * 64 + (b1 - 0x80)) as cp eqn:E.
  unfold encode_cp; settle; divmod cp; repeat f_equal; lia.
Qed.

Lemma encode_cp_3 (b0 b1 b2 : N) :
  let cp := (b0 - 0xE0) * 4096 + (b1 - 0x80) * 64 + (b2 - 0x80) in
  0xE0 <= b0 < 0xF0 -> 0x80 <= b1 <= 0xBF -> 0x80 <= b2 <= 0xBF ->
  0x800 <= cp -> is_surrogate cp = false ->
  encode_cp cp = Some [b0; b1; b2].
Proof.
  intros cp H0 H1 H2 Hmin Hsur.
  assert (E : cp = (b0 - 0xE0) * 4096 + (b1 - 0x80) * 64 + (b2 - 0x80))
    by reflexivity.
  clearbody cp.
  unfold encode_cp; rewrite Hsur; settle; divmod cp; repeat f_equal; lia.
Qed.

Lemma encode_cp_4 (b0 b1 b2 b3 : N) :
  let cp := (b0 - 0xF0) * 262144 + (b1 - 0x80) * 4096
            + (b2 - 0x80) * 64 + (b3 - 0x80) in
  0xF0 <= b0 < 0xF5 ->
  0x80 <= b1 <= 0xBF -> 0x80 <= b2 <= 0xBF -> 0x80 <= b3 <= 0xBF ->
  0x10000 <= cp < 0x110000 ->
  encode_cp cp = Some [b0; b1; b2; b3].
Proof.
  intros cp H0 H1 H2 H3 Hrange.
  assert (E : cp = (b0 - 0xF0) * 262144 + (b1 - 0x80) * 4096
                   + (b2 - 0x80) * 64 + (b3 - 0x80)) by reflexivity.
  clearbody cp.
  unfold encode_cp; settle; divmod cp; repeat f_equal; lia.
Qed.

Lemma option_map_cons_some (c : N) (o : option str) (s : str) :
  option_map (cons c) o = Some s -> exists t, o = Some t /\ s = c :: t.
Proof.
  destruct o as [t|]; simpl; intros E; [|discriminate E].
  exists t; split; [reflexivity | injection E; auto].
Qed.

Ltac conts :=
  repeat match goal with
    | H : is_cont _ = true |- _ => apply is_cont_true in H
    end.

(** Whatever decodes is the encoding of what it decodes to. *)
Lemma encode_decode_N (n : nat) :
  forall (bs : list N) (s : str),
    (List.length bs <= n)%nat -> decode_N bs = Some s -> encode_N s = Some bs.
Proof.
  induction n as [|n IH]; intros bs s Hlen.
  { destruct bs; [|simpl in Hlen; lia]. simpl; written s; reflexivity. }
  destruct bs as [|b0 r0]; [simpl; written s; reflexivity|].
  cbn [decode_N].
  destruct (b0 <? 0x80) eqn:T1.
  { intros D; apply option_map_cons_some in D as (t & D & ->).
    tests; cbn [encode_N].
    rewrite encode_cp_1 by assumption.
    rewrite (IH r0 t) by (simpl in Hlen; lia || assumption); reflexivity. }
  destruct (b0 <? 0xC2) eqn:T2; [intros E; discriminate E|].
  destruct (b0 <? 0xE0) eqn:T3.
  { destruct r0 as [|b1 r1]; [intros E; discriminate E|].
    destruct (is_cont b1) eqn:C1; [|intros E; discriminate E].
    intros D; apply option_map_cons_some in D as (t & D & ->).
    tests; conts; cbn [encode_N].
    rewrite encode_cp_2 by lia.
    rewrite (IH r1 t) by (simpl in Hlen; lia || assumption); reflexivity. }
  destruct (b0 <? 0xF0) eqn:T4.
  { destruct r0 as [|b1 [|b2 r2]]; try (intros E; discriminate E).
    cbv zeta.
    match goal with |- (if ?c then _ else _) = _ -> _ => destruct c eqn:C end;
      [|intros E; discriminate E].
    intros D; apply option_map_cons_some in D as (t & D & ->).
    tests; conts; cbn [encode_N].
    rewrite encode_cp_3 by (assumption || lia).
    rewrite (IH r2 t) by (simpl in Hlen; lia || assumption); reflexivity. }
  destruct (b0 <? 0xF5) eqn:T5; [|intros E; discriminate E].
  destruct r0 as [|b1 [|b2 [|b3 r3]]]; try (intros E; discriminate E).
  cbv zeta.
  match goal with |- (if ?c then _ else _) = _ -> _ => destruct c eqn:C end;
    [|intros E; discriminate E].
  intros D; apply option_map_cons_some in D as (t & D & ->).
  tests; conts; cbn [encode_N].
  rewrite encode_cp_4 by lia.
  rewrite (IH r3 t) by (simpl in Hlen; lia || assumption); reflexivity.
Qed.

Lemma byte_of_to_N (b : Byte.byte) : byte_of_N (Byte.to_N b) = b.
Proof. unfold byte_of_N; rewrite Byte.of_to_N; reflexivity. Qed.

Lemma to_byte_of_N (n : N) : n < 256 -> Byte.to_N (byte_of_N n) = n.
Proof.
  intros H; unfold byte_of_N.
  destruct (Byte.of_N n) as [b|] eqn:E.
  - apply Byte.to_of_N, E.
  - apply Byte.of_N_None_iff in E; lia.
Qed.

Lemma encode_N_bytes (s : str) (ns : list N) :
  encode_N s = Some ns -> Forall (fun b => b < 256) ns.
Proof.
  revert ns; induction s as [|cp s IH]; intros ns; cbn [encode_N].
  - written ns; constructor.
  - destruct (encode_cp cp) as [hd|] eqn:Ecp; [|intros E; discriminate E].
    destruct (encode_N s) as [tl|]; [|intros E; discriminate E].
    written ns; apply Forall_app; split;
      [exact (encode_cp_bytes cp hd Ecp) | apply IH; reflexivity].
Qed.

Lemma map_to_byte_of_N (ns : list N) :
  Forall (fun b => b < 256) ns -> map Byte.to_N (map byte_of_N ns) = ns.
Proof.
  induction 1 as [|n ns Hn _ IH]; simpl; [reflexivity|].
  rewrite to_byte_of_N, IH by assumption; reflexivity.
Qed.

Lemma map_byte_of_to_N (b : bytes) : map byte_of_N (map Byte.to_N b) = b.
Proof.
  induction b as [|x b IH]; simpl; [reflexivity|].
  rewrite byte_of_to_N, IH; reflexivity.
Qed.

(** [s.encode("utf-8").decode("utf-8") == s]. *)
Lemma decode_encode (s : str) (b : bytes) :
  encode s = Some b -> decode b = Some s.
Proof.
  unfold encode, decode.
  destruct (encode_N s) as [ns|] eqn:E; [|intros D; discriminate D].
  cbn [option_map]; written b.
  rewrite map_to_byte_of_N by exact (encode_N_bytes s ns E).
  apply decode_encode_N, E.
Qed.

(** Only encodings decode: [b.decode("utf-8").encode("utf-8") == b]. *)
Lemma encode_decode (b : bytes) (s : str) :
  decode b = Some s -> encode s = Some b.
Proof.
  unfold encode, decode; intros D.
  rewrite (encode_decode_N (List.length (map Byte.to_N b)) _ s (le_n _) D).
  cbn [option_map]; rewrite map_byte_of_to_N; reflexivity.
Qed.

Lemma decode_none (b : bytes) :
  decode b = None <-> forall s, encode s <> Some b.
Proof.
  split.
  - intros D s E; apply decode_encode in E; congruence.
  - intros H; destruct (decode b) as [s|] eqn:D; [|reflexivity].
    apply encode_decode in D; elim (H s D).
Qed.

End Utf8Facts.

(** * [score_resume]: the mock path and the live path *)

Section ScoreResume.

Variable environ : list (str * str).
Variable L : Libraries.

Lemma GROQ_API_KEY_unset :
  environ_lookup environ (u "GROQ_API_KEY") = None -> GROQ_API_KEY environ = [].
Proof. unfold GROQ_API_KEY, environ_get; intros ->; reflexivity. Qed.

Lemma GROQ_API_KEY_set (v : str) :
  environ_lookup environ (u "GROQ_API_KEY") = Some v -> GROQ_API_KEY environ = v.
Proof. unfold GROQ_API_KEY, environ_get; intros ->; reflexivity. Qed.

Lemma score_resume_mock (resume_text : str) (log : list ChatRequest) :
  GROQ_API_KEY environ = [] ->
  score_resume environ L resume_text log = (Ok mock_score, log).
Proof. unfold score_resume; intros ->; reflexivity. Qed.

Lemma score_resume_live (resume_text : str) (log : list ChatRequest) :
  live environ ->
  score_resume environ L resume_text log
  = NetMonad.try_except (score_resume_body L resume_text) scoring_error log.
Proof. unfold live, score_resume; intros ->; reflexivity. Qed.

(** The block calls [create] exactly once, whatever the answer. *)
Lemma score_resume_body_run (resume_text : str) (log : list ChatRequest) :
  score_resume_body L resume_text log
  = (of_reply L (chat_completions_create L (chat_request resume_text)),
     log ++ [chat_request resume_text]).
Proof.
  unfold score_resume_body, of_reply, NetMonad.bind, NetMonad.lift, create.
  destruct (chat_completions_create L (chat_request resume_text)) as [response|e];
    [|reflexivity].
  cbn [bind].
  destruct (first_choice response) as [choice|e]; [|reflexivity].
  cbn [bind].
  destruct (loads L (message_content choice)) as [result_json|e]; reflexivity.
Qed.

Lemma score_resume_live_run (resume_text : str) (log : list ChatRequest) :
  live environ ->
  score_resume environ L resume_text log
  = (try_except (of_reply L (chat_completions_create L (chat_request resume_text)))
       scoring_error,
     log ++ [chat_request resume_text]).
Proof.
  intros Hlive; rewrite score_resume_live by exact Hlive.
  unfold NetMonad.try_except; rewrite score_resume_body_run.
  destruct (of_reply L _); reflexivity.
Qed.

Lemma of_reply_payload (resume_text : str) (payload : json) :
  provider_payload L resume_text payload ->
  of_reply L (chat_completions_create L (chat_request resume_text))
  = ResumeScore_of L payload.
Proof.
  intros (response & choice & others & content & Hr & Hc & Hm & Hj).
  unfold of_reply, first_choice, loads.
  rewrite Hr; cbn [bind]; rewrite Hc; cbn [bind]; rewrite Hm, Hj; reflexivity.
Qed.

(** With a payload in hand, the outcome is that of building the model. *)
Lemma score_resume_payload
  (resume_text : str) (payload : json) (log : list ChatRequest) :
  live environ -> provider_payload L resume_text payload ->
  score_resume environ L resume_text log
  = (try_except (ResumeScore_of L payload) scoring_error,
     log ++ [chat_request resume_text]).
Proof.
  intros Hlive Hp.
  rewrite score_resume_live_run, (of_reply_payload resume_text payload Hp)
    by exact Hlive.
  reflexivity.
Qed.

(** When building the model succeeds. *)
Lemma ResumeScore_of_ok (payload : json) (r : ResumeScore) :
  ResumeScore_of L payload = Ok r <->
  exists d s f,
    payload = JDict d
    /\ dict_get d (u "score") = Some s
    /\ dict_get d (u "feedback") = Some f
    /\ validate_int L s = Some (score r)
    /\ validate_dict L f = Some (feedback r).
Proof.
  unfold ResumeScore_of, ResumeScore_init; split.
  - destruct payload as [| | | | | |d]; try discriminate; cbn [getitem].
    destruct (dict_get d (u "score")) as [s|] eqn:Es; [|discriminate].
    cbn [bind].
    destruct (dict_get d (u "feedback")) as [f|] eqn:Ef; [|discriminate].
    cbn [bind].
    destruct (validate_int L s) as [z|] eqn:Ez; [|discriminate].
    destruct (validate_dict L f) as [fb|] eqn:Efb; [|discriminate].
    intros [= <-]; exists d, s, f; cbn [score feedback]; auto.
  - intros (d & s & f & -> & Es & Ef & Ez & Efb).
    cbn [getitem]; rewrite Es; cbn [bind]; rewrite Ef; cbn [bind].
    rewrite Ez, Efb; destruct r; reflexivity.
Qed.

(** A JSON integer and a JSON object always build the model. *)
Lemma ResumeScore_of_int_dict (d : dict) (z : Z) (fb : dict) :
  dict_get d (u "score") = Some (JInt z) ->
  dict_get d (u "feedback") = Some (JDict fb) ->
  ResumeScore_of L (JDict d) = Ok {| score := z; feedback := fb |}.
Proof.
  intros Es Ef; apply ResumeScore_of_ok.
  exists d, (JInt z), (JDict fb); cbn [score feedback].
  auto using validate_int_int, validate_dict_dict.
Qed.

End ScoreResume.

(** * The claims about scoring *)

(** C4.  With no credential in the environment, [score_resume] returns the
    fixed mock result for every text, empty or not: score 75, two strengths,
    two weaknesses and three improvements.  It does so whatever the libraries
    are, and the record of requests sent to the model service is unchanged:
    no network call is made. *)
Theorem mock_without_credential
  (environ : list (str * str)) (L : Libraries)
  (resume_text : str) (log : list ChatRequest) :
  environ_lookup environ (u "GROQ_API_KEY") = None ->
  score_resume environ L resume_text log = (Ok mock_score, log)
  /\ score mock_score = 75%Z
  /\ exists s1 s2 w1 w2 i1 i2 i3,
       feedback mock_score
       = [ (u "strengths", JList [JStr s1; JStr s2]);
           (u "weaknesses", JList [JStr w1; JStr w2]);
           (u "improvements", JList [JStr i1; JStr i2; JStr i3]) ].
Proof.
  intros Hunset; split; [|split].
  - apply score_resume_mock, GROQ_API_KEY_unset, Hunset.
  - reflexivity.
  - unfold mock_score; cbn [feedback]; repeat eexists.
Qed.

Lemma mock_without_credential_witness :
  environ_lookup Fixture.without_key (u "GROQ_API_KEY") = None
  /\ score_resume Fixture.without_key Fixture.offline (u "") []
     = (Ok mock_score, [])
  /\ score_resume Fixture.without_key Fixture.offline
       (u "John Doe" ++ [nl] ++ u "Software Engineer") []
     = (Ok mock_score, []).
Proof.
  split; [reflexivity|]; split.
  - exact (proj1 (mock_without_credential Fixture.without_key Fixture.offline
                    (u "") [] eq_refl)).
  - exact (proj1 (mock_without_credential Fixture.without_key Fixture.offline
                    (u "John Doe" ++ [nl] ++ u "Software Engineer") [] eq_refl)).
Defined.

(** C10.  The credential test is a test of falsiness.  With the variable
    unset, or set to the empty string, [score_resume] takes the mock path for
    every text and sends nothing.  With any non-empty value it sends the one
    request built from the text to the model service, and its outcome is
    made from the service's answer. *)
Theorem credential_test_is_falsiness
  (environ : list (str * str)) (L : Libraries)
  (resume_text : str) (log : list ChatRequest) :
  (environ_lookup environ (u "GROQ_API_KEY") = None
   \/ environ_lookup environ (u "GROQ_API_KEY") = Some [] ->
   score_resume environ L resume_text log = (Ok mock_score, log))
  /\ (forall v,
        environ_lookup environ (u "GROQ_API_KEY") = Some v -> v <> [] ->
        score_resume environ L resume_text log
        = (try_except
             (of_reply L (chat_completions_create L (chat_request resume_text)))
             scoring_error,
           log ++ [chat_request resume_text])).
Proof.
  split.
  - intros [H|H]; apply score_resume_mock;
      [apply GROQ_API_KEY_unset | apply GROQ_API_KEY_set]; exact H.
  - intros v Hv Hne; apply score_resume_live_run.
    unfold live; rewrite (GROQ_API_KEY_set environ v Hv).
    destruct v; [congruence | reflexivity].
Qed.

Lemma credential_test_is_falsiness_witness :
  score_resume Fixture.without_key Fixture.offline (u "cv") [] = (Ok mock_score, [])
  /\ score_resume Fixture.empty_key Fixture.offline (u "cv") [] = (Ok mock_score, [])
  /\ score_resume Fixture.with_key Fixture.offline (u "cv") []
     = (Raise (HTTPException 500 (u "Error scoring resume: Connection error.")),
        [chat_request (u "cv")]).
Proof.
  split; [|split].
  - apply (proj1 (credential_test_is_falsiness Fixture.without_key Fixture.offline
                    (u "cv") [])).
    left; reflexivity.
  - apply (proj1 (credential_test_is_falsiness Fixture.empty_key Fixture.offline
                    (u "cv") [])).
    right; reflexivity.
  - apply (proj2 (credential_test_is_falsiness Fixture.with_key Fixture.offline
                    (u "cv") []) (u "gsk_test")); [reflexivity | discriminate].
Defined.

(** C1, as the code has it.  Building the result from the provider's payload
    needs the payload to be an object with the top-level keys [score] and
    [feedback], the first accepted by the validator of an [int] field and the
    second by the validator of a [Dict[str, Any]] field; then, and only then,
    a result is returned, holding the two validated values.  A JSON integer
    and a JSON object are always accepted, whatever keys the object has: both
    example payloads are accepted with score 82 and their feedback object as
    it is.  Every other payload fails with [HTTPException] 500 and a message
    that starts with "Error scoring resume: ". *)
Theorem validator_checks_top_level_only
  (environ : list (str * str)) (L : Libraries)
  (resume_text : str) (log : list ChatRequest) (payload : json) :
  live environ ->
  provider_payload L resume_text payload ->
  let outcome := fst (score_resume environ L resume_text log) in
  (forall r,
     outcome = Ok r <->
     exists d s f,
       payload = JDict d
       /\ dict_get d (u "score") = Some s
       /\ dict_get d (u "feedback") = Some f
       /\ validate_int L s = Some (score r)
       /\ validate_dict L f = Some (feedback r))
  /\ (forall d z fb,
        payload = JDict d ->
        dict_get d (u "score") = Some (JInt z) ->
        dict_get d (u "feedback") = Some (JDict fb) ->
        outcome = Ok {| score := z; feedback := fb |})
  /\ (payload = Fixture.payload_full ->
      outcome
      = Ok {| score := 82;
              feedback :=
                [ (u "strengths", JList [JStr (u "a")]);
                  (u "weaknesses", JList []);
                  (u "improvements", JList [JStr (u "b"); JStr (u "c")]) ] |})
  /\ (payload = Fixture.payload_partial ->
      outcome
      = Ok {| score := 82;
              feedback := [ (u "strengths", JList [JStr (u "a")]) ] |})
  /\ ((forall r, outcome <> Ok r) ->
      exists cause,
        outcome
        = Raise (HTTPException 500 (u "Error scoring resume: " ++ exc_str cause))).
Proof.
  intros Hlive Hp outcome.
  assert (Hout : outcome = try_except (ResumeScore_of L payload) scoring_error).
  { unfold outcome; rewrite (score_resume_payload environ L resume_text payload log)
      by assumption; reflexivity. }
  assert (Hok : forall r, outcome = Ok r <-> ResumeScore_of L payload = Ok r).
  { intros r; rewrite Hout; unfold try_except.
    destruct (ResumeScore_of L payload); split; congruence. }
  assert (Hint : forall d z fb,
             payload = JDict d ->
             dict_get d (u "score") = Some (JInt z) ->
             dict_get d (u "feedback") = Some (JDict fb) ->
             outcome = Ok {| score := z; feedback := fb |}).
  { intros d z fb -> Es Ef; apply Hok, ResumeScore_of_int_dict; assumption. }
  split; [|split; [|split; [|split]]].
  - intros r; rewrite Hok; apply ResumeScore_of_ok.
  - exact Hint.
  - intros E; exact (Hint _ _ _ E eq_refl eq_refl).
  - intros E; exact (Hint _ _ _ E eq_refl eq_refl).
  - intros Hnone; rewrite Hout in *; unfold try_except in *.
    destruct (ResumeScore_of L payload) as [r|cause].
    + elim (Hnone r); reflexivity.
    + exists cause; reflexivity.
Qed.

Lemma provider_payload_answering (content : str) (payload : json) (resume_text : str) :
  provider_payload (Fixture.answering content payload) resume_text payload.
Proof.
  exists {| choices := [ {| message_content := Some content |} ] |},
    {| message_content := Some content |}, [], content.
  repeat split; cbn.
  rewrite PyFacts.str_eqb_refl; reflexivity.
Qed.

Lemma validator_checks_top_level_only_witness :
  fst (score_resume Fixture.with_key
         (Fixture.answering Fixture.text_full Fixture.payload_full) (u "cv") [])
  = Ok {| score := 82;
          feedback :=
            [ (u "strengths", JList [JStr (u "a")]);
              (u "weaknesses", JList []);
              (u "improvements", JList [JStr (u "b"); JStr (u "c")]) ] |}.
Proof.
  exact (proj1 (proj2 (proj2
    (validator_checks_top_level_only Fixture.with_key
       (Fixture.answering Fixture.text_full Fixture.payload_full) (u "cv") []
       Fixture.payload_full eq_refl
       (provider_payload_answering Fixture.text_full Fixture.payload_full (u "cv")))))
    eq_refl).
Defined.

(** C1 as stated fails: the payload that lacks [weaknesses] and
    [improvements] is not rejected. *)
Lemma partial_feedback_is_accepted :
  fst (score_resume Fixture.with_key
         (Fixture.answering Fixture.text_partial Fixture.payload_partial)
         (u "cv") [])
  = Ok {| score := 82;
          feedback := [ (u "strengths", JList [JStr (u "a")]) ] |}.
Proof. vm_compute; reflexivity. Qed.

(** C2, as the code has it.  The [score] of a result is an integer, and no
    range is imposed on it: when the provider's payload carries a JSON
    integer as [score] and an object as [feedback], the result holds that
    very integer, inside [0,100] or not; it is neither rejected nor clamped.
    The mock result has score 75. *)
Theorem score_is_returned_unchanged
  (environ : list (str * str)) (L : Libraries)
  (resume_text : str) (log : list ChatRequest) (d : dict) (z : Z) (fb : dict) :
  live environ ->
  provider_payload L resume_text (JDict d) ->
  dict_get d (u "score") = Some (JInt z) ->
  dict_get d (u "feedback") = Some (JDict fb) ->
  fst (score_resume environ L resume_text log) = Ok {| score := z; feedback := fb |}
  /\ score mock_score = 75%Z.
Proof.
  intros Hlive Hp Es Ef; split; [|reflexivity].
  rewrite (score_resume_payload environ L resume_text (JDict d) log) by assumption.
  cbn [fst]; rewrite (ResumeScore_of_int_dict L d z fb Es Ef); reflexivity.
Qed.

Lemma score_is_returned_unchanged_witness :
  fst (score_resume Fixture.with_key
         (Fixture.answering Fixture.text_full Fixture.payload_full) (u "cv") [])
  = Ok {| score := 82;
          feedback :=
            [ (u "strengths", JList [JStr (u "a")]);
              (u "weaknesses", JList []);
              (u "improvements", JList [JStr (u "b"); JStr (u "c")]) ] |}
  /\ score mock_score = 75%Z.
Proof.
  exact (score_is_returned_unchanged Fixture.with_key
           (Fixture.answering Fixture.text_full Fixture.payload_full) (u "cv") []
           _ 82%Z _ eq_refl
           (provider_payload_answering Fixture.text_full Fixture.payload_full (u "cv"))
           eq_refl eq_refl).
Defined.

(** C2 as stated fails: a payload with score 150 is returned with score 150. *)
Lemma score_150_is_returned :
  fst (score_resume Fixture.with_key
         (Fixture.answering Fixture.text_150 Fixture.payload_150) (u "cv") [])
  = Ok {| score := 150; feedback := [] |}
  /\ (100 < 150)%Z.
Proof. split; [vm_compute; reflexivity | reflexivity]. Qed.

(** C8, as the code has it.  With a credential configured, [score_resume]
    calls [chat.completions.create] exactly once for every text, with no
    retry of its own, and ends in one of two ways.  Either it returns a
    result whose two fields both passed validation of the provider's
    payload; the feedback is the provider's object as sent, so a payload
    with a JSON integer and any JSON object, even one with no item, is
    returned as it is.  Or it raises [HTTPException] 500 whose message is
    "Error scoring resume: " followed by the text of the underlying cause;
    a failure of the call to the model service, and a failure to parse the
    content as JSON, are raised this way with that failure as the cause. *)
Theorem live_path_result_or_error
  (environ : list (str * str)) (L : Libraries)
  (resume_text : str) (log : list ChatRequest) :
  live environ ->
  let run := score_resume environ L resume_text log in
  snd run = log ++ [chat_request resume_text]
  /\ ((exists r payload d s f,
         fst run = Ok r
         /\ provider_payload L resume_text payload
         /\ payload = JDict d
         /\ dict_get d (u "score") = Some s
         /\ dict_get d (u "feedback") = Some f
         /\ validate_int L s = Some (score r)
         /\ validate_dict L f = Some (feedback r))
      \/ (exists cause,
            fst run
            = Raise (HTTPException 500
                       (u "Error scoring resume: " ++ exc_str cause))))
  /\ (forall d z fb,
        provider_payload L resume_text (JDict d) ->
        dict_get d (u "score") = Some (JInt z) ->
        dict_get d (u "feedback") = Some (JDict fb) ->
        fst run = Ok {| score := z; feedback := fb |})
  /\ (forall e,
        chat_completions_create L (chat_request resume_text) = Raise e ->
        fst run
        = Raise (HTTPException 500 (u "Error scoring resume: " ++ exc_str e)))
  /\ (forall response choice others content e,
        chat_completions_create L (chat_request resume_text) = Ok response ->
        choices response = choice :: others ->
        message_content choice = Some content ->
        json_loads L content = Raise e ->
        fst run
        = Raise (HTTPException 500 (u "Error scoring resume: " ++ exc_str e))).
Proof.
  intros Hlive run.
  assert (Hrun : run = (try_except
                          (of_reply L (chat_completions_create L
                                         (chat_request resume_text)))
                          scoring_error,
                        log ++ [chat_request resume_text]))
    by (apply score_resume_live_run, Hlive).
  assert (Hpay : forall d z fb,
             provider_payload L resume_text (JDict d) ->
             dict_get d (u "score") = Some (JInt z) ->
             dict_get d (u "feedback") = Some (JDict fb) ->
             fst run = Ok {| score := z; feedback := fb |}).
  { intros d z fb Hp Es Ef; unfold run.
    rewrite (score_resume_payload environ L resume_text (JDict d) log Hlive Hp).
    cbn [fst]; rewrite (ResumeScore_of_int_dict L d z fb Es Ef); reflexivity. }
  split; [rewrite Hrun; reflexivity|].
  split; [|split; [exact Hpay|]]; clear Hpay; rewrite Hrun; cbn [fst snd];
    [|split].
  - unfold of_reply, first_choice, loads.
    destruct (chat_completions_create L (chat_request resume_text))
      as [response|e] eqn:Hr; cbn [bind];
      [|right; exists e; reflexivity].
    destruct (choices response) as [|choice others] eqn:Hc; cbn [bind];
      [right; eexists; reflexivity|].
    destruct (message_content choice) as [content|] eqn:Hm;
      [|right; eexists; reflexivity].
    destruct (json_loads L content) as [payload|e] eqn:Hj; cbn [bind];
      [|right; exists e; reflexivity].
    destruct (ResumeScore_of L payload) as [r|e] eqn:Hv;
      [|right; exists e; reflexivity].
    left.
    destruct (proj1 (ResumeScore_of_ok L payload r) Hv)
      as (d & s & f & Hd & Hs & Hf & Hvs & Hvf).
    exists r, payload, d, s, f; repeat split; try assumption.
    exists response, choice, others, content; auto.
  - intros e ->; reflexivity.
  - intros response choice others content e Hr Hc Hm Hj.
    unfold of_reply, first_choice, loads.
    rewrite Hr; cbn [bind]; rewrite Hc; cbn [bind]; rewrite Hm, Hj; reflexivity.
Qed.

(** C8 as stated fails: a reply with a score and an empty feedback object
    is not refused; the result returned has no strength, no weakness and no
    improvement. *)
Lemma empty_feedback_is_returned :
  fst (score_resume Fixture.with_key
         (Fixture.answering text_no_items payload_no_items) (u "cv") [])
  = Ok {| score := 82; feedback := [] |}.
Proof. vm_compute; reflexivity. Qed.

Lemma live_path_result_or_error_witness :
  snd (score_resume Fixture.with_key Fixture.offline (u "cv") [])
  = [chat_request (u "cv")]
  /\ fst (score_resume Fixture.with_key Fixture.offline (u "cv") [])
     = Raise (HTTPException 500 (u "Error scoring resume: Connection error.")).
Proof.
  pose proof (live_path_result_or_error Fixture.with_key Fixture.offline
                (u "cv") [] eq_refl) as (Hlog & _ & _ & Hfail & _).
  split; [exact Hlog | exact (Hfail Fixture.APIConnectionError eq_refl)].
Defined.

(** * Extraction: dispatch on the file name, and the three extractors *)

Section Extraction.

Variable L : Libraries.

Lemma file_extension_of_last_component (name e : str) :
  last_component name e -> file_extension_of name = lower e.
Proof.
  unfold file_extension_of; intros [p e' H | s H].
  - rewrite PyFacts.last_split_after_sep by exact H; reflexivity.
  - rewrite PyFacts.last_split_no_sep by exact H; reflexivity.
Qed.

(** Every name has a last component. *)
Lemma last_component_total (name : str) : exists e, last_component name e.
Proof.
  induction name as [|c name (e & IH)].
  - exists []; apply whole_name; simpl; tauto.
  - destruct IH as [p e H | s H].
    + exists e; apply (after_last_dot (c :: p) e H).
    + destruct (N.eq_dec c dot) as [->|Hc].
      * exists s; apply (after_last_dot [] s H).
      * exists (c :: s); apply whole_name; simpl; intros [E|E]; auto.
Qed.

Lemma pages_loop_texts (pages : list PageObject) (texts : list str) (acc : str) :
  map extract_text pages = map Ok texts ->
  pages_loop pages acc = Ok (acc ++ List.concat texts).
Proof.
  revert texts acc; induction pages as [|page pages IH];
    intros [|t texts] acc; simpl; try discriminate.
  - intros _; rewrite app_nil_r; reflexivity.
  - intros [= Ht Hrest]; rewrite Ht; cbn [bind].
    rewrite (IH texts (acc ++ t) Hrest), app_assoc; reflexivity.
Qed.

(** Once the reader is built, the [with] statement fails and its error is
    what the handler reports. *)
Lemma extract_text_from_pdf_opened
  (file_content : bytes) (pages : list PageObject) :
  PdfReader L file_content = Ok pages ->
  extract_text_from_pdf L file_content
  = Raise (HTTPException 400
             (u "Error extracting text from PDF: " ++ exc_str (PdfReader_enter L))).
Proof. intros Hr; unfold extract_text_from_pdf; rewrite Hr; reflexivity. Qed.

Lemma extract_text_from_pdf_unreadable (file_content : bytes) (e : PyExc) :
  PdfReader L file_content = Raise e ->
  extract_text_from_pdf L file_content
  = Raise (HTTPException 400 (u "Error extracting text from PDF: " ++ exc_str e)).
Proof. intros Hr; unfold extract_text_from_pdf; rewrite Hr; reflexivity. Qed.

Lemma extract_text_from_docx_join
  (file_content : bytes) (paragraphs : list Paragraph) :
  Document L file_content = Ok paragraphs ->
  extract_text_from_docx L file_content = Ok (join [nl] (map text paragraphs)).
Proof. intros Hd; unfold extract_text_from_docx; rewrite Hd; reflexivity. Qed.

(** The four branches of [extract_text_from_resume], by the lowered
    extension. *)
Lemma dispatch_pdf (file : UploadFile) :
  file_extension_of (filename file) = u "pdf" ->
  extract_text_from_resume L file = extract_text_from_pdf L (read file).
Proof. unfold extract_text_from_resume; intros ->; reflexivity. Qed.

Lemma dispatch_docx (file : UploadFile) :
  file_extension_of (filename file) = u "docx"
  \/ file_extension_of (filename file) = u "doc" ->
  extract_text_from_resume L file = extract_text_from_docx L (read file).
Proof. unfold extract_text_from_resume; intros [-> | ->]; reflexivity. Qed.

Lemma dispatch_txt (file : UploadFile) :
  file_extension_of (filename file) = u "txt" ->
  extract_text_from_resume L file = propagate (bytes_decode L (read file)).
Proof. unfold extract_text_from_resume; intros ->; reflexivity. Qed.

Lemma dispatch_other (file : UploadFile) :
  file_extension_of (filename file) <> u "pdf" ->
  file_extension_of (filename file) <> u "docx" ->
  file_extension_of (filename file) <> u "doc" ->
  file_extension_of (filename file) <> u "txt" ->
  extract_text_from_resume L file
  = Raise (HTTPException 400
             (u "Unsupported file format. Please upload PDF, DOCX, or TXT file.")).
Proof.
  unfold extract_text_from_resume; intros H1 H2 H3 H4.
  apply PyFacts.str_eqb_neq in H1, H2, H3, H4.
  cbn [existsb]; rewrite H1, H2, H3, H4; reflexivity.
Qed.

End Extraction.

(** * The claims about extraction *)

(** C3, as the code has it.  The dispatcher looks at the last component of
    the declared name, that is what follows its last full stop, or the whole
    name when it holds none, lowered.  When that is [pdf] the bytes go to the
    page-based extractor; [docx] or [doc], to the flow-document extractor;
    [txt], to strict UTF-8 decoding; anything else fails with
    [HTTPException] 400, "Unsupported file format...".  A name with no full
    stop therefore fails unless the name itself is one of the four. *)
Theorem dispatch_on_last_component (L : Libraries) (file : UploadFile) (e : str) :
  last_component (filename file) e ->
  (lower e = u "pdf" ->
   extract_text_from_resume L file = extract_text_from_pdf L (read file))
  /\ (lower e = u "docx" \/ lower e = u "doc" ->
      extract_text_from_resume L file = extract_text_from_docx L (read file))
  /\ (lower e = u "txt" ->
      extract_text_from_resume L file = propagate (bytes_decode L (read file)))
  /\ (lower e <> u "pdf" -> lower e <> u "docx" ->
      lower e <> u "doc" -> lower e <> u "txt" ->
      extract_text_from_resume L file
      = Raise (HTTPException 400
                 (u "Unsupported file format. Please upload PDF, DOCX, or TXT file."))).
Proof.
  intros He; apply file_extension_of_last_component in He.
  repeat split.
  - intros E; apply dispatch_pdf; congruence.
  - intros E; apply dispatch_docx; rewrite He; exact E.
  - intros E; apply dispatch_txt; congruence.
  - intros; apply dispatch_other; congruence.
Qed.

Lemma dispatch_on_last_component_witness :
  (extract_text_from_resume Fixture.offline
     (Fixture.upload "Resume.v2.PDF" [Byte.x25])
   = Raise (HTTPException 400
              (u "Error extracting text from PDF: EOF marker not found")))
  /\ (extract_text_from_resume
        (Fixture.documents [] [Fixture.paragraph "Hello"])
        (Fixture.upload "cv.Docx" [])
      = Ok (u "Hello"))
  /\ (extract_text_from_resume Fixture.offline (Fixture.upload "cv.txt" [Byte.x68])
      = Ok (u "h"))
  /\ (extract_text_from_resume Fixture.offline (Fixture.upload "resume" [])
      = Raise (HTTPException 400
                 (u "Unsupported file format. Please upload PDF, DOCX, or TXT file."))).
Proof.
  split; [|split; [|split]].
  - apply (proj1 (dispatch_on_last_component Fixture.offline
                    (Fixture.upload "Resume.v2.PDF" [Byte.x25]) (u "PDF")
                    (after_last_dot (u "Resume.v2") (u "PDF")
                       ltac:(vm_compute; intuition discriminate)))).
    reflexivity.
  - apply (proj1 (proj2 (dispatch_on_last_component
                    (Fixture.documents [] [Fixture.paragraph "Hello"])
                    (Fixture.upload "cv.Docx" []) (u "Docx")
                    (after_last_dot (u "cv") (u "Docx")
                       ltac:(vm_compute; intuition discriminate))))).
    left; reflexivity.
  - apply (proj1 (proj2 (proj2 (dispatch_on_last_component Fixture.offline
                    (Fixture.upload "cv.txt" [Byte.x68]) (u "txt")
                    (after_last_dot (u "cv") (u "txt")
                       ltac:(vm_compute; intuition discriminate)))))).
    reflexivity.
  - apply (proj2 (proj2 (proj2 (dispatch_on_last_component Fixture.offline
                    (Fixture.upload "resume" []) (u "resume")
                    (whole_name (u "resume")
                       ltac:(vm_compute; intuition discriminate))))));
      vm_compute; discriminate.
Defined.

(** C3 as stated fails: the name [txt] has no full stop, hence no extension,
    and its bytes are nevertheless decoded and returned as text instead of
    being refused. *)
Lemma dotless_txt_is_read_as_text :
  existsb (N.eqb dot) (u "txt") = false
  /\ extract_text_from_resume Fixture.offline
       (Fixture.upload "txt" (list_byte_of_string "John Doe"))
     = Ok (u "John Doe").
Proof. split; vm_compute; reflexivity. Qed.

(** C5.  On the [txt] path the bytes are decoded as strict UTF-8.  When they
    are the encoding of a string, that string is returned, exactly; when
    they are the encoding of no string, a [UnicodeDecodeError] is raised;
    and whatever text is returned encodes back to the very bytes received,
    so no character was substituted. *)
Theorem txt_is_decoded_strictly (L : Libraries) (file : UploadFile) (e : str) :
  last_component (filename file) e ->
  lower e = u "txt" ->
  (forall s,
     Utf8.encode s = Some (read file) -> extract_text_from_resume L file = Ok s)
  /\ ((forall s, Utf8.encode s <> Some (read file)) ->
      extract_text_from_resume L file
      = Raise (Uncaught (mkExc (u "UnicodeDecodeError")
                           (decode_error_str L (read file)))))
  /\ (forall s,
        extract_text_from_resume L file = Ok s -> Utf8.encode s = Some (read file)).
Proof.
  intros He Etxt.
  rewrite dispatch_txt
    by (rewrite (file_extension_of_last_component (filename file) e He); exact Etxt).
  unfold propagate, try_except, bytes_decode.
  split; [|split].
  - intros s Hs; rewrite (Utf8Facts.decode_encode s (read file) Hs); reflexivity.
  - intros Hnone; apply Utf8Facts.decode_none in Hnone; rewrite Hnone; reflexivity.
  - intros s; destruct (Utf8.decode (read file)) as [t|] eqn:D; [|discriminate].
    intros [= <-]; apply Utf8Facts.encode_decode, D.
Qed.

Lemma txt_is_decoded_strictly_witness :
  (extract_text_from_resume Fixture.offline
     (Fixture.upload "cv.txt" [Byte.x68; Byte.xc3; Byte.xa9; Byte.xe2; Byte.x82; Byte.xac])
   = Ok [104; 233; 8364]%N)
  /\ (extract_text_from_resume Fixture.offline
        (Fixture.upload "cv.txt" [Byte.x68; Byte.xff])
      = Raise (Uncaught (mkExc (u "UnicodeDecodeError")
                           (u "'utf-8' codec can't decode bytes")))).
Proof.
  split.
  - apply (proj1 (txt_is_decoded_strictly Fixture.offline
                    (Fixture.upload "cv.txt"
                       [Byte.x68; Byte.xc3; Byte.xa9; Byte.xe2; Byte.x82; Byte.xac])
                    (u "txt")
                    (after_last_dot (u "cv") (u "txt")
                       ltac:(vm_compute; intuition discriminate))
                    eq_refl)).
    reflexivity.
  - apply (proj1 (proj2 (txt_is_decoded_strictly Fixture.offline
                    (Fixture.upload "cv.txt" [Byte.x68; Byte.xff])
                    (u "txt")
                    (after_last_dot (u "cv") (u "txt")
                       ltac:(vm_compute; intuition discriminate))
                    eq_refl))).
    apply Utf8Facts.decode_none; reflexivity.
Defined.

(** C6, the code against the claim.  For a document the reader opens and
    whose pages all yield text, extraction should return the texts of the
    pages end to end.  It does not: the reader is entered with [with], which
    it does not support, so the loop over the pages never runs, and the
    handler turns the error of the [with] statement into [HTTPException]
    400.  Pages "A" and "B" give that error, not "AB". *)
Theorem pdf_pages_are_never_read
  (L : Libraries) (file_content : bytes)
  (pages : list PageObject) (texts : list str) :
  PdfReader L file_content = Ok pages ->
  map extract_text pages = map Ok texts ->
  extract_text_from_pdf L file_content
  = Raise (HTTPException 400
             (u "Error extracting text from PDF: " ++ exc_str (PdfReader_enter L)))
  /\ extract_text_from_pdf L file_content <> Ok (List.concat texts).
Proof.
  intros Hr _.
  rewrite (extract_text_from_pdf_opened L file_content pages Hr).
  split; [reflexivity | discriminate].
Qed.

Lemma pdf_pages_are_never_read_witness :
  exists detail,
    extract_text_from_pdf
      (Fixture.documents [Fixture.page "A"; Fixture.page "B"] []) []
    = Raise (HTTPException 400 detail).
Proof.
  eexists.
  exact (proj1 (pdf_pages_are_never_read
                  (Fixture.documents [Fixture.page "A"; Fixture.page "B"] [])
                  [] [Fixture.page "A"; Fixture.page "B"]
                  [u "A"; u "B"] eq_refl eq_refl)).
Defined.

(** C7.  For a document the library opens, the extracted text is the texts
    of its paragraphs, in order, joined with a single line feed: its length
    is that of the texts plus one per gap, splitting it on line feeds gives
    the paragraphs back when none of them holds one, and the paragraphs
    "Hello" and "World" give "Hello", a line feed, "World". *)
Theorem docx_paragraphs_are_joined_by_newline
  (L : Libraries) (file_content : bytes) (paragraphs : list Paragraph) :
  Document L file_content = Ok paragraphs ->
  exists out,
    extract_text_from_docx L file_content = Ok out
    /\ out = join [nl] (map text paragraphs)
    /\ List.length out
       = list_sum (map (fun p => List.length (text p)) paragraphs)
         + (List.length paragraphs - 1)
    /\ (paragraphs <> [] ->
        (forall p, In p paragraphs -> ~ In nl (text p)) ->
        split nl out = map text paragraphs)
    /\ (map text paragraphs = [u "Hello"; u "World"] ->
        out = u "Hello" ++ [nl] ++ u "World").
Proof.
  intros Hd; exists (join [nl] (map text paragraphs)).
  split; [apply extract_text_from_docx_join, Hd|].
  split; [reflexivity|]; split; [|split].
  - rewrite PyFacts.join_length, map_map, length_map; simpl; lia.
  - intros Hne Hnl; apply PyFacts.split_join.
    + destruct paragraphs; [congruence | discriminate].
    + intros x Hx; apply in_map_iff in Hx as (p & <- & Hp); apply Hnl, Hp.
  - intros ->; reflexivity.
Qed.

Lemma docx_paragraphs_are_joined_by_newline_witness :
  extract_text_from_docx
    (Fixture.documents [] [Fixture.paragraph "Hello"; Fixture.paragraph "World"]) []
  = Ok (u "Hello" ++ [nl] ++ u "World").
Proof.
  destruct (docx_paragraphs_are_joined_by_newline
              (Fixture.documents []
                 [Fixture.paragraph "Hello"; Fixture.paragraph "World"])
              [] [Fixture.paragraph "Hello"; Fixture.paragraph "World"] eq_refl)
    as (out & Hout & _ & _ & _ & Hex).
  rewrite Hout, (Hex eq_refl); reflexivity.
Defined.

(** * The endpoint, end to end *)

(** [resume.txt] holding "John Doe", a line feed, "Software Engineer",
    uploaded with no credential configured: the mock result, nothing sent. *)
Lemma score_resume_api_txt_without_credential :
  score_resume_api Fixture.without_key Fixture.offline
    (Fixture.upload "resume.txt"
       (list_byte_of_string "John Doe" ++ [Byte.x0a]
        ++ list_byte_of_string "Software Engineer")) []
  = (Ok mock_score, []).
Proof. vm_compute; reflexivity. Qed.

(** An upload whose format is refused never reaches the scoring step. *)
Lemma score_resume_api_extraction_error
  (environ : list (str * str)) (L : Libraries) (file : UploadFile)
  (e : exn) (log : list ChatRequest) :
  extract_text_from_resume L file = Raise e ->
  score_resume_api environ L file log = (Raise e, log).
Proof.
  intros He; unfold score_resume_api, NetMonad.bind, NetMonad.lift.
  rewrite He; reflexivity.
Qed.

(** * The claim about the classification of errors *)

(** C9, as the code has it.  Every [HTTPException] raised by extraction has
    status 400 and a message: an unsupported format, and a document the PDF
    or DOCX library cannot read, are reported this way.  Every error raised
    by scoring is an [HTTPException] with status 500 whose message is
    "Error scoring resume: " followed by the text of the cause; a provider
    payload from which the result cannot be built is among them. *)
Theorem errors_are_400_or_500 (environ : list (str * str)) (L : Libraries) :
  (forall file status detail,
     extract_text_from_resume L file = Raise (HTTPException status detail) ->
     status = 400%Z /\ detail <> [])
  /\ (forall file_content e,
        PdfReader L file_content = Raise e ->
        extract_text_from_pdf L file_content
        = Raise (HTTPException 400 (u "Error extracting text from PDF: " ++ exc_str e)))
  /\ (forall file_content e,
        Document L file_content = Raise e ->
        extract_text_from_docx L file_content
        = Raise (HTTPException 400 (u "Error extracting text from DOCX: " ++ exc_str e)))
  /\ (forall resume_text log e,
        fst (score_resume environ L resume_text log) = Raise e ->
        exists cause,
          e = HTTPException 500 (u "Error scoring resume: " ++ exc_str cause))
  /\ (forall resume_text log payload cause,
        live environ ->
        provider_payload L resume_text payload ->
        ResumeScore_of L payload = Raise cause ->
        fst (score_resume environ L resume_text log)
        = Raise (HTTPException 500 (u "Error scoring resume: " ++ exc_str cause))).
Proof.
  split; [|split; [|split; [|split]]].
  - intros file status detail; unfold extract_text_from_resume.
    destruct (str_eqb _ (u "pdf")).
    { unfold extract_text_from_pdf, try_except.
      destruct (bind _ _); [discriminate|].
      intros [= <- <-]; split; [reflexivity | discriminate]. }
    destruct (existsb _ _).
    { unfold extract_text_from_docx, try_except.
      destruct (bind _ _); [discriminate|].
      intros [= <- <-]; split; [reflexivity | discriminate]. }
    destruct (str_eqb _ (u "txt")).
    { unfold propagate, try_except; destruct (bytes_decode _ _); discriminate. }
    intros [= <- <-]; split; [reflexivity | discriminate].
  - intros file_content e He; unfold extract_text_from_pdf; rewrite He; reflexivity.
  - intros file_content e He; unfold extract_text_from_docx; rewrite He; reflexivity.
  - intros resume_text log e; unfold score_resume.
    destruct (falsy (GROQ_API_KEY environ)); [discriminate|].
    unfold NetMonad.try_except.
    destruct (score_resume_body L resume_text log) as [[r|cause] log'];
      [discriminate|].
    intros [= <-]; exists cause; reflexivity.
  - intros resume_text log payload cause Hlive Hp Hv.
    rewrite (score_resume_payload environ L resume_text payload log Hlive Hp), Hv.
    reflexivity.
Qed.

Lemma errors_are_400_or_500_witness :
  (extract_text_from_pdf Fixture.offline [Byte.x25]
   = Raise (HTTPException 400
              (u "Error extracting text from PDF: EOF marker not found")))
  /\ (fst (score_resume Fixture.with_key
             (Fixture.answering Fixture.text_no_score Fixture.payload_no_score)
             (u "cv") [])
      = Raise (HTTPException 500 (u "Error scoring resume: 'score'"))).
Proof.
  pose proof (errors_are_400_or_500 Fixture.with_key Fixture.offline)
    as (_ & Hpdf & _).
  pose proof (errors_are_400_or_500 Fixture.with_key
                (Fixture.answering Fixture.text_no_score Fixture.payload_no_score))
    as (_ & _ & _ & _ & Hpay).
  split.
  - exact (Hpdf [Byte.x25] Fixture.PdfReadError eq_refl).
  - exact (Hpay (u "cv") [] Fixture.payload_no_score
             (Json.KeyError (u "score")) eq_refl
             (provider_payload_answering Fixture.text_no_score
                Fixture.payload_no_score (u "cv"))
             eq_refl).
Defined.

(** C9 as stated fails: a provider payload without [score], which the claim
    files under the 4xx class, is answered with status 500. *)
Lemma malformed_payload_is_500 :
  fst (score_resume Fixture.with_key
         (Fixture.answering Fixture.text_no_score Fixture.payload_no_score)
         (u "cv") [])
  = Raise (HTTPException 500 (u "Error scoring resume: 'score'")).
Proof. vm_compute; reflexivity. Qed.

(** * Further properties of the endpoint *)

Section Endpoint.

Variable environ : list (str * str).
Variable L : Libraries.

Lemma score_resume_raises (resume_text : str) (log : list ChatRequest) (e : exn) :
  fst (score_resume environ L resume_text log) = Raise e ->
  exists cause, e = HTTPException 500 (u "Error scoring resume: " ++ exc_str cause).
Proof.
  unfold score_resume.
  destruct (falsy (GROQ_API_KEY environ)); [discriminate|].
  unfold NetMonad.try_except.
  destruct (score_resume_body L resume_text log) as [[r|cause] log'];
    [discriminate|].
  intros [= <-]; exists cause; reflexivity.
Qed.

Lemma live_dec : {live environ} + {GROQ_API_KEY environ = []}.
Proof.
  unfold live; destruct (GROQ_API_KEY environ); [right | left]; reflexivity.
Qed.

(** What extraction can raise, branch by branch. *)
Lemma extract_text_from_resume_raises (file : UploadFile) (e : exn) :
  extract_text_from_resume L file = Raise e ->
  (exists detail, e = HTTPException 400 detail /\ detail <> [])
  \/ (e = Uncaught (mkExc (u "UnicodeDecodeError")
                      (decode_error_str L (read file)))
      /\ file_extension_of (filename file) = u "txt"
      /\ Utf8.decode (read file) = None).
Proof.
  unfold extract_text_from_resume.
  destruct (str_eqb _ (u "pdf")).
  { unfold extract_text_from_pdf, try_except.
    destruct (bind _ _); [discriminate|].
    intros [= <-]; left; eexists; split; [reflexivity | discriminate]. }
  destruct (existsb _ _).
  { unfold extract_text_from_docx, try_except.
    destruct (bind _ _); [discriminate|].
    intros [= <-]; left; eexists; split; [reflexivity | discriminate]. }
  destruct (str_eqb _ (u "txt")) eqn:Etxt.
  { apply PyFacts.str_eqb_eq in Etxt.
    unfold propagate, try_except, bytes_decode.
    destruct (Utf8.decode (read file)); [discriminate|].
    intros [= <-]; right; auto. }
  intros [= <-]; left; eexists; split; [reflexivity | discriminate].
Qed.

End Endpoint.

(** X1.  The request built for a resume has two messages, the fixed
    system message and then the user message, and the user message is the
    resume text as it is, unescaped, between a head and a tail that do not
    depend on it.  Hence the request determines the text: two texts that
    give the same request are the same text. *)
Theorem chat_request_keeps_the_text (t1 t2 : str) :
  (exists head tail,
     forall resume_text,
       messages (chat_request resume_text)
       = [ (u "system", system_message);
           (u "user", head ++ resume_text ++ tail) ])
  /\ (chat_request t1 = chat_request t2 -> t1 = t2).
Proof.
  split.
  - exists prompt_head, prompt_tail; intros resume_text; reflexivity.
  - intros E.
    pose proof (f_equal (fun r => nth 1 (map snd (messages r)) []) E) as H.
    cbn [messages chat_request map snd nth] in H.
    apply app_inv_head in H; apply app_inv_tail in H; exact H.
Qed.

Lemma chat_request_keeps_the_text_witness :
  chat_request (u "cv" ++ [nl]) = chat_request [99; 118; 10]%N
  /\ u "cv" ++ [nl] = [99; 118; 10]%N.
Proof.
  split; [reflexivity|].
  exact (proj2 (chat_request_keeps_the_text (u "cv" ++ [nl]) [99; 118; 10]%N)
           eq_refl).
Defined.

(** X2.  The endpoint calls [chat.completions.create] at most once, after
    the calls made before: not at all when extraction fails or no credential
    is configured, and otherwise exactly once, with the arguments built from
    the extracted text.  Whether the client repeats a failing call on the
    wire is not counted here. *)
Theorem score_resume_api_calls_create_at_most_once
  (environ : list (str * str)) (L : Libraries)
  (file : UploadFile) (log : list ChatRequest) :
  exists sent,
    snd (score_resume_api environ L file log) = log ++ sent
    /\ ((sent = []
         /\ (GROQ_API_KEY environ = []
             \/ exists e, extract_text_from_resume L file = Raise e))
        \/ (exists resume_text,
              live environ
              /\ extract_text_from_resume L file = Ok resume_text
              /\ sent = [chat_request resume_text])).
Proof.
  unfold score_resume_api, NetMonad.bind, NetMonad.lift.
  destruct (extract_text_from_resume L file) as [t|e].
  - destruct (live_dec environ) as [Hlive|Hmock].
    + exists [chat_request t]; split.
      * rewrite score_resume_live_run by exact Hlive; reflexivity.
      * right; exists t; auto.
    + exists []; split.
      * rewrite score_resume_mock by exact Hmock; cbn [snd].
        rewrite app_nil_r; reflexivity.
      * left; auto.
  - exists []; split; [cbn [snd]; rewrite app_nil_r; reflexivity|].
    left; split; [reflexivity | right; exists e; reflexivity].
Qed.

(** X3.  Whatever error leaves the endpoint is one of three: an
    [HTTPException] 400 with a message, raised by extraction; an
    [HTTPException] 500 "Error scoring resume: ..." raised by scoring after
    extraction succeeded; or the [UnicodeDecodeError] of a [txt] upload whose
    bytes are not UTF-8, which no handler catches. *)
Theorem score_resume_api_errors
  (environ : list (str * str)) (L : Libraries)
  (file : UploadFile) (log : list ChatRequest) (e : exn) :
  fst (score_resume_api environ L file log) = Raise e ->
  (exists detail,
     e = HTTPException 400 detail /\ detail <> []
     /\ extract_text_from_resume L file = Raise e)
  \/ (exists cause resume_text,
        e = HTTPException 500 (u "Error scoring resume: " ++ exc_str cause)
        /\ extract_text_from_resume L file = Ok resume_text)
  \/ (e = Uncaught (mkExc (u "UnicodeDecodeError")
                      (decode_error_str L (read file)))
      /\ file_extension_of (filename file) = u "txt"
      /\ Utf8.decode (read file) = None).
Proof.
  unfold score_resume_api, NetMonad.bind, NetMonad.lift.
  destruct (extract_text_from_resume L file) as [t|e'] eqn:Hx.
  - intros H; apply score_resume_raises in H as (cause & ->).
    right; left; exists cause, t; auto.
  - cbn [fst]; intros [= <-].
    destruct (extract_text_from_resume_raises L file e' Hx)
      as [(detail & -> & Hd) | (-> & Hext & Hdec)].
    + left; exists detail; auto.
    + right; right; auto.
Qed.

Lemma score_resume_api_errors_witness :
  (exists detail,
     Uncaught (mkExc (u "UnicodeDecodeError") (u "'utf-8' codec can't decode bytes"))
     = HTTPException 400 detail /\ detail <> []
     /\ extract_text_from_resume Fixture.offline (Fixture.upload "cv.txt" [Byte.xff])
        = Raise (Uncaught (mkExc (u "UnicodeDecodeError")
                             (u "'utf-8' codec can't decode bytes"))))
  \/ (exists cause resume_text,
        Uncaught (mkExc (u "UnicodeDecodeError") (u "'utf-8' codec can't decode bytes"))
        = HTTPException 500 (u "Error scoring resume: " ++ exc_str cause)
        /\ extract_text_from_resume Fixture.offline (Fixture.upload "cv.txt" [Byte.xff])
           = Ok resume_text)
  \/ (Uncaught (mkExc (u "UnicodeDecodeError") (u "'utf-8' codec can't decode bytes"))
      = Uncaught (mkExc (u "UnicodeDecodeError")
                    (decode_error_str Fixture.offline
                       (read (Fixture.upload "cv.txt" [Byte.xff]))))
      /\ file_extension_of (filename (Fixture.upload "cv.txt" [Byte.xff])) = u "txt"
      /\ Utf8.decode (read (Fixture.upload "cv.txt" [Byte.xff])) = None).
Proof.
  exact (score_resume_api_errors Fixture.with_key Fixture.offline
           (Fixture.upload "cv.txt" [Byte.xff]) [] _ eq_refl).
Defined.

(** * Further properties of extraction *)

Section ExtractionMore.

Variable L : Libraries.

(** The loop stops at the first page that raises, with that page's error. *)
Lemma pages_loop_raises
  (before after : list PageObject) (page : PageObject)
  (texts : list str) (e : PyExc) (acc : str) :
  map extract_text before = map Ok texts ->
  extract_text page = Raise e ->
  pages_loop (before ++ page :: after) acc = Raise e.
Proof.
  revert texts acc; induction before as [|p before IH];
    intros [|t texts] acc; simpl; try discriminate.
  - intros _ ->; reflexivity.
  - intros [= Ht Hrest] He; rewrite Ht; cbn [bind].
    exact (IH texts (acc ++ t) Hrest He).
Qed.

(** When the loop succeeds, every page yielded its text. *)
Lemma pages_loop_ok (pages : list PageObject) (acc out : str) :
  pages_loop pages acc = Ok out ->
  exists texts,
    map extract_text pages = map Ok texts /\ out = acc ++ List.concat texts.
Proof.
  revert acc; induction pages as [|page pages IH]; intros acc; simpl.
  - intros [= <-]; exists []; rewrite app_nil_r; auto.
  - destruct (extract_text page) as [t|e] eqn:Ht; [|discriminate].
    cbn [bind]; intros H; apply IH in H as (texts & Hm & ->).
    exists (t :: texts); simpl; rewrite Hm, app_assoc; auto.
Qed.

Lemma lower_cp_dot (c : N) : lower_cp c = dot <-> c = dot.
Proof.
  unfold lower_cp, dot.
  destruct ((65 <=? c)%N && (c <=? 90)%N) eqn:E; [|tauto].
  apply andb_true_iff in E as (H1 & H2).
  apply N.leb_le in H1, H2; lia.
Qed.

Lemma lower_cp_idempotent (c : N) : lower_cp (lower_cp c) = lower_cp c.
Proof.
  unfold lower_cp.
  destruct ((65 <=? c)%N && (c <=? 90)%N) eqn:E; [|rewrite E; reflexivity].
  apply andb_true_iff in E as (H1 & H2).
  apply N.leb_le in H1, H2.
  replace ((65 <=? c + 32)%N && (c + 32 <=? 90)%N) with false; [reflexivity|].
  symmetry; apply andb_false_iff; right; apply N.leb_gt; lia.
Qed.

(** Lowering leaves full stops where they are, so it commutes with
    splitting on them. *)
Lemma split_lower (s : str) : split dot (lower s) = map lower (split dot s).
Proof.
  induction s as [|c s IH]; [reflexivity|].
  cbn [lower map split]; fold (lower s).
  destruct (N.eqb_spec c dot) as [->|Hc].
  - change (lower_cp dot) with dot; rewrite N.eqb_refl, IH; reflexivity.
  - destruct (N.eqb_spec (lower_cp c) dot) as [E|_];
      [apply (proj1 (lower_cp_dot c)) in E; contradiction|].
    rewrite IH; pose proof (PyFacts.split_not_nil dot s) as Hne.
    destruct (split dot s); [congruence | reflexivity].
Qed.

Lemma last_map_lower (l : list str) :
  l <> [] -> last_item (map lower l) = lower (last_item l).
Proof.
  unfold last_item; induction l as [|x l IH]; [congruence|]; intros _.
  destruct l as [|y l]; [reflexivity|].
  change (last (map lower (x :: y :: l)) []) with (last (map lower (y :: l)) []).
  change (last (x :: y :: l) []) with (last (y :: l) []).
  apply IH; discriminate.
Qed.

Lemma file_extension_of_lower (name : str) :
  file_extension_of (lower name) = file_extension_of name.
Proof.
  unfold file_extension_of.
  rewrite split_lower, last_map_lower by apply PyFacts.split_not_nil.
  unfold lower; rewrite map_map.
  apply map_ext, lower_cp_idempotent.
Qed.

End ExtractionMore.

(** X4.  In the widget the reader is built without [with], and the loop
    over the pages runs.  A PDF whose pages all yield text is read as those
    texts end to end.  When a page raises while the pages before it yielded
    their text, reading stops with that page's error: the text gathered so
    far is dropped, the pages after it are not read, and the widget shows
    "Error processing resume: " followed by the error, with no score and no
    call to the model service. *)
Theorem widget_pdf_pages
  (environ : list (str * str)) (L : Libraries) (D : Gradio.Desktop)
  (f : Gradio.File) (log : list ChatRequest) (pages : list PageObject) :
  file_extension_of (Gradio.name f) = u "pdf" ->
  Gradio.open_pdf D (Gradio.name f) = Ok pages ->
  (forall texts,
     map extract_text pages = map Ok texts ->
     Gradio.read_resume D (Gradio.name f) = Ok (Some (List.concat texts)))
  /\ (forall before page after texts e,
        pages = before ++ page :: after ->
        map extract_text before = map Ok texts ->
        extract_text page = Raise e ->
        Gradio.gradio_score_resume environ L D (Some f) log
        = ((None, u "Error processing resume: " ++ exc_str e), log)).
Proof.
  intros Hext Hopen.
  assert (Hread : Gradio.read_resume D (Gradio.name f)
                  = (t <- pages_loop pages (u "") ;; Ok (Some t))%py).
  { unfold Gradio.read_resume; cbn zeta; rewrite Hext.
    change (str_eqb (u "pdf") (u "pdf")) with true.
    cbv iota; rewrite Hopen; reflexivity. }
  split.
  - intros texts Ht; rewrite Hread, (pages_loop_texts pages texts (u "") Ht).
    reflexivity.
  - intros before page after texts e -> Hb He.
    unfold Gradio.gradio_score_resume; rewrite Hread.
    rewrite (pages_loop_raises before after page texts e (u "") Hb He).
    reflexivity.
Qed.

Lemma widget_pdf_pages_witness :
  Gradio.read_resume
    (Gradio.desk [Fixture.page "A"; Fixture.page ""; Fixture.page "B"] [] [])
    (u "/tmp/cv.pdf")
  = Ok (Some (u "AB"))
  /\ Gradio.gradio_score_resume Fixture.with_key Fixture.offline
       (Gradio.desk
          [Fixture.page "A"; {| extract_text := Raise Fixture.PdfReadError |};
           Fixture.page "B"] [] [])
       (Some {| Gradio.name := u "/tmp/cv.pdf" |}) []
     = ((None, u "Error processing resume: EOF marker not found"), []).
Proof.
  split.
  - exact (proj1 (widget_pdf_pages Fixture.with_key Fixture.offline
                    (Gradio.desk
                       [Fixture.page "A"; Fixture.page ""; Fixture.page "B"] [] [])
                    {| Gradio.name := u "/tmp/cv.pdf" |} []
                    [Fixture.page "A"; Fixture.page ""; Fixture.page "B"]
                    eq_refl eq_refl)
             [u "A"; u ""; u "B"] eq_refl).
  - exact (proj2 (widget_pdf_pages Fixture.with_key Fixture.offline
                    (Gradio.desk
                       [Fixture.page "A";
                        {| extract_text := Raise Fixture.PdfReadError |};
                        Fixture.page "B"] [] [])
                    {| Gradio.name := u "/tmp/cv.pdf" |} []
                    [Fixture.page "A";
                     {| extract_text := Raise Fixture.PdfReadError |};
                     Fixture.page "B"]
                    eq_refl eq_refl)
             [Fixture.page "A"] {| extract_text := Raise Fixture.PdfReadError |}
             [Fixture.page "B"] [u "A"] Fixture.PdfReadError
             eq_refl eq_refl eq_refl).
Defined.

(** X5.  The endpoint's PDF extraction never returns a text.  When the
    reader cannot be built, the outcome is [HTTPException] 400 carrying the
    reader's error; when it can, the [with] statement that enters it fails,
    and the outcome is [HTTPException] 400 carrying that error, whatever
    the pages hold.  The message always starts with "Error extracting text
    from PDF: ". *)
Theorem pdf_extraction_outcomes (L : Libraries) (file_content : bytes) :
  (forall out, extract_text_from_pdf L file_content <> Ok out)
  /\ (forall e,
        PdfReader L file_content = Raise e ->
        extract_text_from_pdf L file_content
        = Raise (HTTPException 400
                   (u "Error extracting text from PDF: " ++ exc_str e)))
  /\ (forall pages,
        PdfReader L file_content = Ok pages ->
        extract_text_from_pdf L file_content
        = Raise (HTTPException 400
                   (u "Error extracting text from PDF: "
                    ++ exc_str (PdfReader_enter L)))).
Proof.
  split; [|split].
  - intros out.
    destruct (PdfReader L file_content) as [pages|e] eqn:Hr.
    + rewrite (extract_text_from_pdf_opened L file_content pages Hr); discriminate.
    + rewrite (extract_text_from_pdf_unreadable L file_content e Hr); discriminate.
  - intros e Hr; exact (extract_text_from_pdf_unreadable L file_content e Hr).
  - intros pages Hr; exact (extract_text_from_pdf_opened L file_content pages Hr).
Qed.

(** X6.  DOCX extraction fails exactly when the library cannot open the
    document, with [HTTPException] 400 carrying the library's error; joining
    the paragraphs never fails, and a document with no paragraph gives the
    empty text. *)
Theorem docx_extraction_outcomes (L : Libraries) (file_content : bytes) :
  (forall e,
     extract_text_from_docx L file_content = Raise e <->
     exists cause,
       Document L file_content = Raise cause
       /\ e = HTTPException 400
                (u "Error extracting text from DOCX: " ++ exc_str cause))
  /\ (Document L file_content = Ok [] ->
      extract_text_from_docx L file_content = Ok []).
Proof.
  unfold extract_text_from_docx, try_except; split.
  - intros e; destruct (Document L file_content) as [ps|cause]; cbn [bind]; split.
    + discriminate.
    + intros (c & Hc & _); discriminate.
    + intros [= <-]; exists cause; auto.
    + intros (c & [= <-] & ->); reflexivity.
  - intros ->; reflexivity.
Qed.

(** X7.  The dispatch does not depend on the case of the name: a file and
    the same file with its name lowered are treated alike. *)
Theorem dispatch_ignores_case (L : Libraries) (name : str) (content : bytes) :
  extract_text_from_resume L {| filename := lower name; read := content |}
  = extract_text_from_resume L {| filename := name; read := content |}.
Proof.
  unfold extract_text_from_resume; cbn [filename read].
  rewrite file_extension_of_lower; reflexivity.
Qed.

(** X8.  A name that is empty, or that ends with a full stop, has an empty
    extension and is refused with [HTTPException] 400, whatever the bytes. *)
Theorem empty_extension_is_refused (L : Libraries) (stem : str) (content : bytes) :
  extract_text_from_resume L {| filename := []; read := content |}
  = Raise (HTTPException 400
             (u "Unsupported file format. Please upload PDF, DOCX, or TXT file."))
  /\ extract_text_from_resume L {| filename := stem ++ [dot]; read := content |}
     = Raise (HTTPException 400
                (u "Unsupported file format. Please upload PDF, DOCX, or TXT file.")).
Proof.
  split; [reflexivity|].
  apply dispatch_other; cbn [filename];
    rewrite (file_extension_of_last_component (stem ++ [dot]) []
               (after_last_dot stem [] (fun H => H)));
    discriminate.
Qed.

Lemma pdf_extraction_outcomes_witness :
  extract_text_from_pdf Fixture.offline [Byte.x25]
  = Raise (HTTPException 400
             (u "Error extracting text from PDF: EOF marker not found")).
Proof.
  exact (proj1 (proj2 (pdf_extraction_outcomes Fixture.offline [Byte.x25]))
           Fixture.PdfReadError eq_refl).
Defined.

Lemma docx_extraction_outcomes_witness :
  extract_text_from_docx Fixture.offline [Byte.x50]
  = Raise (HTTPException 400
             (u "Error extracting text from DOCX: Package not found")).
Proof.
  apply (proj2 (proj1 (docx_extraction_outcomes Fixture.offline [Byte.x50]) _)).
  exists Fixture.PackageNotFoundError; split; reflexivity.
Defined.

(** * Further properties of the text path *)

Module Utf8More.
Import Utf8 Utf8Facts.

Local Open Scope N_scope.

Lemma decode_N_ascii (ns : list N) :
  Forall (fun b => b < 0x80) ns -> decode_N ns = Some ns.
Proof.
  induction 1 as [|b ns Hb _ IH]; [reflexivity|].
  cbn [decode_N]; rewrite (@ltb_true b 0x80 Hb), IH; reflexivity.
Qed.

Lemma encode_cp_scalar (cp : N) (bs : list N) :
  encode_cp cp = Some bs ->
  scalar cp /\ (1 <= List.length bs <= 4)%nat.
Proof.
  unfold encode_cp, scalar.
  destruct (cp <? 0x80) eqn:T1.
  { written bs; tests; split; [split|simpl; lia];
      [lia | apply is_surrogate_false; lia]. }
  destruct (cp <? 0x800) eqn:T2.
  { written bs; tests; split; [split|simpl; lia];
      [lia | apply is_surrogate_false; lia]. }
  destruct (cp <? 0x10000) eqn:T3.
  { destruct (is_surrogate cp) eqn:T4; [intros E; discriminate E|].
    written bs; tests; split; [split|simpl; lia]; [lia | reflexivity]. }
  destruct (cp <? 0x110000) eqn:T4; [|intros E; discriminate E].
  written bs; tests; split; [split|simpl; lia];
    [lia | apply is_surrogate_false; lia].
Qed.

Lemma encode_N_scalar (s : str) (ns : list N) :
  encode_N s = Some ns ->
  Forall scalar s
  /\ (List.length s <= List.length ns <= 4 * List.length s)%nat.
Proof.
  revert ns; induction s as [|cp s IH]; intros ns; cbn [encode_N].
  - written ns; split; [constructor | simpl; lia].
  - destruct (encode_cp cp) as [hd|] eqn:Ecp; [|intros E; discriminate E].
    destruct (encode_N s) as [tl|]; [|intros E; discriminate E].
    written ns.
    destruct (encode_cp_scalar cp hd Ecp) as (Hcp & Hlen).
    destruct (IH tl eq_refl) as (Hs & Hlens).
    split; [constructor; assumption|].
    rewrite length_app; simpl; lia.
Qed.

Lemma decode_scalar (b : bytes) (s : str) :
  decode b = Some s ->
  Forall scalar s
  /\ (List.length s <= List.length b <= 4 * List.length s)%nat.
Proof.
  unfold decode; intros D.
  pose proof (encode_decode_N (List.length (map Byte.to_N b)) _ s (le_n _) D) as E.
  apply encode_N_scalar in E; rewrite length_map in E; exact E.
Qed.

Lemma decode_ascii (b : bytes) :
  Forall (fun x => Byte.to_N x < 0x80) b -> decode b = Some (map Byte.to_N b).
Proof.
  intros H; unfold decode; apply decode_N_ascii.
  apply Forall_map; exact H.
Qed.

End Utf8More.

(** X9.  A [txt] upload made of ASCII bytes only, the empty upload
    included, is always accepted, and its text is those bytes, one code
    point each. *)
Theorem txt_ascii_is_kept (L : Libraries) (file : UploadFile) :
  file_extension_of (filename file) = u "txt" ->
  Forall (fun x => (Byte.to_N x < 0x80)%N) (read file) ->
  extract_text_from_resume L file = Ok (map Byte.to_N (read file)).
Proof.
  intros Hext Hascii; rewrite dispatch_txt by exact Hext.
  unfold propagate, try_except, bytes_decode.
  rewrite (Utf8More.decode_ascii (read file) Hascii); reflexivity.
Qed.

Lemma txt_ascii_is_kept_witness :
  extract_text_from_resume Fixture.offline
    (Fixture.upload "notes.TXT" (list_byte_of_string "John Doe"))
  = Ok (u "John Doe")
  /\ extract_text_from_resume Fixture.offline (Fixture.upload "notes.TXT" [])
     = Ok [].
Proof.
  split.
  - apply (txt_ascii_is_kept Fixture.offline
             (Fixture.upload "notes.TXT" (list_byte_of_string "John Doe")) eq_refl).
    repeat constructor.
  - exact (txt_ascii_is_kept Fixture.offline (Fixture.upload "notes.TXT" [])
             eq_refl (Forall_nil _)).
Defined.

(** X10.  The text extracted from a [txt] upload holds Unicode scalar
    values only (no surrogate, nothing past U+10FFFF), and has at most as
    many code points as the upload has bytes, and at least a quarter. *)
Theorem txt_text_is_well_formed (L : Libraries) (file : UploadFile) (s : str) :
  file_extension_of (filename file) = u "txt" ->
  extract_text_from_resume L file = Ok s ->
  Forall scalar s
  /\ List.length s <= List.length (read file) <= 4 * List.length s.
Proof.
  intros Hext; rewrite dispatch_txt by exact Hext.
  unfold propagate, try_except, bytes_decode.
  destruct (Utf8.decode (read file)) as [t|] eqn:D; [|discriminate].
  intros [= <-]; exact (Utf8More.decode_scalar (read file) t D).
Qed.

Lemma txt_text_is_well_formed_witness :
  Forall scalar [104; 233; 8364]%N
  /\ List.length [104; 233; 8364]%N
     <= List.length [Byte.x68; Byte.xc3; Byte.xa9; Byte.xe2; Byte.x82; Byte.xac]
     <= 4 * List.length [104; 233; 8364]%N.
Proof.
  exact (txt_text_is_well_formed Fixture.offline
           (Fixture.upload "cv.txt"
              [Byte.x68; Byte.xc3; Byte.xa9; Byte.xe2; Byte.x82; Byte.xac])
           [104; 233; 8364]%N eq_refl eq_refl).
Defined.

(** * Further properties of scoring *)

(** X11.  With a credential configured and an object as payload, a missing
    [score] key is reported first, as [HTTPException] 500 "Error scoring
    resume: 'score'", whatever else the object holds; with [score] present
    and [feedback] missing the message names 'feedback', whether or not the
    score itself would have been accepted. *)
Theorem missing_key_is_reported_in_order
  (environ : list (str * str)) (L : Libraries)
  (resume_text : str) (log : list ChatRequest) (d : dict) :
  live environ ->
  provider_payload L resume_text (JDict d) ->
  (dict_get d (u "score") = None ->
   fst (score_resume environ L resume_text log)
   = Raise (HTTPException 500 (u "Error scoring resume: 'score'")))
  /\ (forall s,
        dict_get d (u "score") = Some s ->
        dict_get d (u "feedback") = None ->
        fst (score_resume environ L resume_text log)
        = Raise (HTTPException 500 (u "Error scoring resume: 'feedback'"))).
Proof.
  intros Hlive Hp.
  rewrite (score_resume_payload environ L resume_text (JDict d) log Hlive Hp).
  unfold ResumeScore_of; cbn [fst getitem]; split.
  - intros ->; reflexivity.
  - intros s -> ->; reflexivity.
Qed.

Lemma missing_key_is_reported_in_order_witness :
  fst (score_resume Fixture.with_key
         (Fixture.answering (u "{}") (JDict [])) (u "cv") [])
  = Raise (HTTPException 500 (u "Error scoring resume: 'score'"))
  /\ fst (score_resume Fixture.with_key
            (Fixture.answering (u "{}") (JDict [(u "score", JStr (u "high"))]))
            (u "cv") [])
     = Raise (HTTPException 500 (u "Error scoring resume: 'feedback'")).
Proof.
  split.
  - exact (proj1 (missing_key_is_reported_in_order Fixture.with_key
                    (Fixture.answering (u "{}") (JDict [])) (u "cv") [] []
                    eq_refl
                    (provider_payload_answering (u "{}") (JDict []) (u "cv")))
             eq_refl).
  - exact (proj2 (missing_key_is_reported_in_order Fixture.with_key
                    (Fixture.answering (u "{}") (JDict [(u "score", JStr (u "high"))]))
                    (u "cv") [] [(u "score", JStr (u "high"))]
                    eq_refl
                    (provider_payload_answering (u "{}")
                       (JDict [(u "score", JStr (u "high"))]) (u "cv")))
             (JStr (u "high")) eq_refl eq_refl).
Defined.

(** X12.  A reply of the model service that holds no choice, or whose first
    choice has no content, ends in [HTTPException] 500, after the one
    request was sent: the first with the message of the failed [choices[0]],
    the second with that of [json.loads(None)]. *)
Theorem reply_without_content_is_500
  (environ : list (str * str)) (L : Libraries)
  (resume_text : str) (log : list ChatRequest) (response : ChatCompletion) :
  live environ ->
  chat_completions_create L (chat_request resume_text) = Ok response ->
  (choices response = [] ->
   score_resume environ L resume_text log
   = (Raise (HTTPException 500
               (u "Error scoring resume: list index out of range")),
      log ++ [chat_request resume_text]))
  /\ (forall choice others,
        choices response = choice :: others ->
        message_content choice = None ->
        score_resume environ L resume_text log
        = (Raise (HTTPException 500
                    (u "Error scoring resume: the JSON object must be str, bytes or bytearray, not NoneType")),
           log ++ [chat_request resume_text])).
Proof.
  intros Hlive Hr.
  rewrite (score_resume_live_run environ L resume_text log Hlive), Hr.
  unfold of_reply, first_choice, loads; cbn [bind]; split.
  - intros ->; reflexivity.
  - intros choice others Hc Hm; rewrite Hc; cbn [bind]; rewrite Hm; reflexivity.
Qed.

Lemma reply_without_content_is_500_witness :
  fst (score_resume Fixture.with_key
         (Fixture.libraries (fun _ => Raise Fixture.PdfReadError)
            (fun _ => Raise Fixture.PackageNotFoundError)
            (fun _ => Ok {| choices := [] |}) [])
         (u "cv") [])
  = Raise (HTTPException 500 (u "Error scoring resume: list index out of range")).
Proof.
  exact (f_equal fst
           (proj1 (reply_without_content_is_500 Fixture.with_key
                     (Fixture.libraries (fun _ => Raise Fixture.PdfReadError)
                        (fun _ => Raise Fixture.PackageNotFoundError)
                        (fun _ => Ok {| choices := [] |}) [])
                     (u "cv") [] {| choices := [] |} eq_refl eq_refl)
              eq_refl)).
Defined.

(** X13.  When both keys are present but the validator of either field
    refuses its value, the outcome is one [HTTPException] 500 carrying
    pydantic's message for the two values: a mistyped score is not coerced
    to a default, and a mistyped feedback is not replaced. *)
Theorem mistyped_field_is_500
  (environ : list (str * str)) (L : Libraries)
  (resume_text : str) (log : list ChatRequest) (d : dict) (s f : json) :
  live environ ->
  provider_payload L resume_text (JDict d) ->
  dict_get d (u "score") = Some s ->
  dict_get d (u "feedback") = Some f ->
  validate_int L s = None \/ validate_dict L f = None ->
  fst (score_resume environ L resume_text log)
  = Raise (HTTPException 500
             (u "Error scoring resume: " ++ validation_error_str L s f)).
Proof.
  intros Hlive Hp Hs Hf Hbad.
  rewrite (score_resume_payload environ L resume_text (JDict d) log Hlive Hp).
  unfold ResumeScore_of, ResumeScore_init; cbn [fst getitem].
  rewrite Hs; cbn [bind]; rewrite Hf; cbn [bind].
  destruct Hbad as [-> | Hd]; [reflexivity|].
  rewrite Hd; destruct (validate_int L s); reflexivity.
Qed.

Lemma mistyped_field_is_500_witness :
  fst (score_resume Fixture.with_key
         (Fixture.answering (u "{}")
            (JDict [(u "score", JStr (u "high")); (u "feedback", JDict [])]))
         (u "cv") [])
  = Raise (HTTPException 500
             (u "Error scoring resume: validation error for ResumeScore")).
Proof.
  exact (mistyped_field_is_500 Fixture.with_key
           (Fixture.answering (u "{}")
              (JDict [(u "score", JStr (u "high")); (u "feedback", JDict [])]))
           (u "cv") [] _ (JStr (u "high")) (JDict [])
           eq_refl
           (provider_payload_answering (u "{}")
              (JDict [(u "score", JStr (u "high")); (u "feedback", JDict [])])
              (u "cv"))
           eq_refl eq_refl (or_introl eq_refl)).
Defined.

(** * The Gradio widget *)

Section WidgetFacts.
Import Gradio.

Variable environ : list (str * str).
Variable L : Libraries.
Variable D : Desktop.

Lemma processing_error_not_unsupported (m : str) :
  processing_error m <> (None, unsupported_text).
Proof. unfold processing_error; intros E; injection E as E; discriminate E. Qed.

Lemma extension_cases (path : str) :
  let ext := file_extension_of path in
  ext = u "pdf" \/ (ext = u "docx" \/ ext = u "doc") \/ ext = u "txt"
  \/ (ext <> u "pdf" /\ ext <> u "docx" /\ ext <> u "doc" /\ ext <> u "txt").
Proof.
  intros ext.
  destruct (str_eqb ext (u "pdf")) eqn:E1;
    [apply PyFacts.str_eqb_eq in E1; auto | apply PyFacts.str_eqb_neq in E1].
  destruct (str_eqb ext (u "docx")) eqn:E2;
    [apply PyFacts.str_eqb_eq in E2; auto | apply PyFacts.str_eqb_neq in E2].
  destruct (str_eqb ext (u "doc")) eqn:E3;
    [apply PyFacts.str_eqb_eq in E3; auto | apply PyFacts.str_eqb_neq in E3].
  destruct (str_eqb ext (u "txt")) eqn:E4;
    [apply PyFacts.str_eqb_eq in E4; auto 6 | apply PyFacts.str_eqb_neq in E4].
  auto 8.
Qed.

(** The widget takes its early return exactly on the extensions it does
    not know. *)
Lemma read_resume_unsupported (path : str) :
  read_resume D path = Ok None <->
  (file_extension_of path <> u "pdf" /\ file_extension_of path <> u "docx"
   /\ file_extension_of path <> u "doc" /\ file_extension_of path <> u "txt").
Proof.
  unfold read_resume; cbn zeta.
  destruct (extension_cases path) as [E | [[E | E] | [E | (E1 & E2 & E3 & E4)]]].
  - rewrite E; split; [|tauto].
    change (str_eqb (u "pdf") (u "pdf")) with true.
    cbv iota.
    destruct (open_pdf D path) as [pages|e]; cbn [bind]; [|discriminate].
    destruct (pages_loop pages (u "")); discriminate.
  - rewrite E; split; [|tauto].
    change (str_eqb (u "docx") (u "pdf")) with false.
    change (existsb (str_eqb (u "docx")) [u "docx"; u "doc"]) with true.
    cbv iota.
    destruct (open_docx D path); discriminate.
  - rewrite E; split; [|tauto].
    change (str_eqb (u "doc") (u "pdf")) with false.
    change (existsb (str_eqb (u "doc")) [u "docx"; u "doc"]) with true.
    cbv iota.
    destruct (open_docx D path); discriminate.
  - rewrite E; split; [|tauto].
    change (str_eqb (u "txt") (u "pdf")) with false.
    change (existsb (str_eqb (u "txt")) [u "docx"; u "doc"]) with false.
    change (str_eqb (u "txt") (u "txt")) with true.
    cbv iota.
    destruct (read_text D path); discriminate.
  - split; [auto|intros _].
    apply PyFacts.str_eqb_neq in E1, E2, E3, E4.
    cbn [existsb]; rewrite E1, E2, E3, E4; reflexivity.
Qed.

Lemma extract_unsupported (file : UploadFile) :
  extract_text_from_resume L file
  = Raise (HTTPException 400 unsupported_text) <->
  (file_extension_of (filename file) <> u "pdf"
   /\ file_extension_of (filename file) <> u "docx"
   /\ file_extension_of (filename file) <> u "doc"
   /\ file_extension_of (filename file) <> u "txt").
Proof.
  split.
  - intros H.
    destruct (extension_cases (filename file))
      as [E | [E | [E | E]]]; [exfalso .. | exact E].
    + rewrite (dispatch_pdf L file E) in H.
      unfold extract_text_from_pdf, try_except in H.
      destruct (bind _ _); [discriminate|].
      injection H as H; discriminate H.
    + rewrite (dispatch_docx L file E) in H.
      unfold extract_text_from_docx, try_except in H.
      destruct (bind _ _); [discriminate|].
      injection H as H; discriminate H.
    + rewrite (dispatch_txt L file E) in H.
      unfold propagate, try_except in H.
      destruct (bytes_decode L (read file)); discriminate.
  - intros (E1 & E2 & E3 & E4); apply dispatch_other; assumption.
Qed.

Lemma gradio_unsupported (f : File) (log : list ChatRequest) :
  fst (gradio_score_resume environ L D (Some f) log) = (None, unsupported_text)
  <-> read_resume D (name f) = Ok None.
Proof.
  unfold gradio_score_resume.
  destruct (read_resume D (name f)) as [[t|]|e]; cbn [fst].
  - split; [|discriminate].
    destruct (score_resume environ L t log) as [[scored|e] log']; cbn [fst].
    + destruct (display D scored) as [[n fb]|e]; cbn [fst];
        [discriminate | intros H; elim (processing_error_not_unsupported _ H)].
    + intros H; elim (processing_error_not_unsupported _ H).
  - tauto.
  - split; [|discriminate].
    intros H; elim (processing_error_not_unsupported _ H).
Qed.

End WidgetFacts.

Section NewlineFacts.
Import Gradio.

(** Taken two code points at a time, as the translation reads them. *)
Lemma pairs_ind (P : str -> Prop) :
  P [] -> (forall c, P [c]) ->
  (forall c d s, P s -> P (d :: s) -> P (c :: d :: s)) ->
  forall s, P s.
Proof.
  intros H0 H1 H2 s.
  assert (H : P s /\ forall c, P (c :: s)); [|exact (proj1 H)].
  induction s as [|d s (IHs & IHc)]; [auto|].
  split; [apply IHc|].
  intros c; apply H2; [exact IHs | apply IHc].
Qed.

Lemma universal_newlines_no_cr (s : str) : ~ In cr (universal_newlines s).
Proof.
  induction s as [| c | c d s IH1 IH2] using pairs_ind.
  - simpl; tauto.
  - simpl; destruct (N.eqb_spec c cr) as [->|Hc]; simpl; intuition discriminate.
  - cbn [universal_newlines].
    destruct (N.eqb_spec c cr) as [->|Hc].
    + destruct (N.eqb d nl); intros [E|E]; try discriminate E; auto.
    + intros [E|E]; [congruence | exact (IH2 E)].
Qed.

Lemma universal_newlines_id (s : str) : ~ In cr s -> universal_newlines s = s.
Proof.
  induction s as [|c s IH]; [reflexivity|]; intros H.
  cbn [universal_newlines].
  destruct (N.eqb_spec c cr) as [->|_]; [elim H; left; reflexivity|].
  rewrite IH; [reflexivity | intros E; apply H; right; exact E].
Qed.

Lemma universal_newlines_length (s : str) :
  List.length (universal_newlines s) <= List.length s.
Proof.
  induction s as [| c | c d s IH1 IH2] using pairs_ind.
  - simpl; lia.
  - simpl; destruct (N.eqb c cr); simpl; lia.
  - cbn [universal_newlines].
    destruct (N.eqb c cr).
    + destruct (N.eqb d nl); simpl in *; lia.
    + simpl in *; lia.
Qed.

End NewlineFacts.

(** X14.  The widget and the endpoint refuse the same names: the widget
    answers "Unsupported file format..." for a path exactly when the
    endpoint raises its unsupported-format error for that name, whatever
    the files hold; and the widget then sends nothing. *)
Theorem widget_refuses_like_the_endpoint
  (environ : list (str * str)) (L : Libraries) (D : Gradio.Desktop)
  (f : Gradio.File) (content : bytes) (log : list ChatRequest) :
  (fst (Gradio.gradio_score_resume environ L D (Some f) log)
   = (None, Gradio.unsupported_text)
   <-> extract_text_from_resume L {| filename := Gradio.name f; read := content |}
       = Raise (HTTPException 400 Gradio.unsupported_text))
  /\ (fst (Gradio.gradio_score_resume environ L D (Some f) log)
      = (None, Gradio.unsupported_text) ->
      snd (Gradio.gradio_score_resume environ L D (Some f) log) = log).
Proof.
  split.
  - rewrite gradio_unsupported, read_resume_unsupported, extract_unsupported.
    reflexivity.
  - intros H; apply gradio_unsupported in H.
    unfold Gradio.gradio_score_resume; rewrite H; reflexivity.
Qed.

Lemma widget_refuses_like_the_endpoint_witness :
  fst (Gradio.gradio_score_resume Fixture.with_key Fixture.offline
         (Gradio.desk [] [] []) (Some {| Gradio.name := u "/tmp/cv.odt" |}) [])
  = (None, Gradio.unsupported_text)
  /\ snd (Gradio.gradio_score_resume Fixture.with_key Fixture.offline
            (Gradio.desk [] [] []) (Some {| Gradio.name := u "/tmp/cv.odt" |}) [])
     = [].
Proof.
  pose proof (widget_refuses_like_the_endpoint Fixture.with_key Fixture.offline
                (Gradio.desk [] [] []) {| Gradio.name := u "/tmp/cv.odt" |} [] [])
    as (Hiff & Hlog).
  split; [exact (proj2 Hiff eq_refl) | exact (Hlog (proj2 Hiff eq_refl))].
Defined.


Section DisplayFacts.
Import Gradio.

Variable D : Desktop.

Lemma bullets_strings (scored : ResumeScore) (key : str) (l : list str) :
  dict_get (feedback scored) key = Some (JList (map JStr l)) ->
  bullets D scored key = Ok (join [nl] (map (fun s => u "- " ++ s) l)).
Proof.
  intros H; unfold bullets; cbn [getitem]; rewrite H; cbn [bind iter].
  rewrite map_map; do 2 f_equal.
  apply map_ext; intros s; rewrite format_value_str; reflexivity.
Qed.

Lemma bullets_missing (scored : ResumeScore) (key : str) :
  dict_get (feedback scored) key = None ->
  bullets D scored key = Raise (Json.KeyError key).
Proof. intros H; unfold bullets; cbn [getitem]; rewrite H; reflexivity. Qed.

Lemma bullets_ok (scored : ResumeScore) (key out : str) :
  bullets D scored key = Ok out ->
  exists value items,
    dict_get (feedback scored) key = Some value /\ iter value = Ok items.
Proof.
  unfold bullets; cbn [getitem].
  destruct (dict_get (feedback scored) key) as [value|]; [|discriminate].
  cbn [bind]; destruct (iter value) as [items|e] eqn:Hi; [|discriminate].
  intros _; exists value, items; auto.
Qed.

End DisplayFacts.

(** X16.  With no credential in the environment and a file the widget can
    read, the widget shows the score 75 and the mock feedback, each item on
    a line of its own after "- ", under the three headings; nothing is
    sent. *)
Theorem widget_shows_the_mock
  (environ : list (str * str)) (L : Libraries) (D : Gradio.Desktop)
  (f : Gradio.File) (resume_text : str) (log : list ChatRequest) :
  environ_lookup environ (u "GROQ_API_KEY") = None ->
  Gradio.read_resume D (Gradio.name f) = Ok (Some resume_text) ->
  Gradio.gradio_score_resume environ L D (Some f) log
  = ((Some 75%Z,
      Gradio.feedback_text (u "75")
        (u "- Strong education section" ++ [nl] ++ u "- Good experience details")
        (u "- Missing quantifiable achievements" ++ [nl] ++ u "- Too verbose")
        (u "- Add metrics to achievements" ++ [nl] ++ u "- Be more concise"
         ++ [nl] ++ u "- Consider adding skills section")),
     log).
Proof.
  intros Hunset Hr; unfold Gradio.gradio_score_resume; rewrite Hr.
  rewrite (score_resume_mock environ L resume_text log
             (GROQ_API_KEY_unset environ Hunset)).
  unfold Gradio.display.
  rewrite (bullets_strings D mock_score (u "strengths")
             [u "Strong education section"; u "Good experience details"] eq_refl).
  rewrite (bullets_strings D mock_score (u "weaknesses")
             [u "Missing quantifiable achievements"; u "Too verbose"] eq_refl).
  rewrite (bullets_strings D mock_score (u "improvements")
             [u "Add metrics to achievements"; u "Be more concise";
              u "Consider adding skills section"] eq_refl).
  reflexivity.
Qed.

Lemma widget_shows_the_mock_witness :
  fst (fst (Gradio.gradio_score_resume Fixture.without_key Fixture.offline
              (Gradio.desk [] [] (list_byte_of_string "John Doe"))
              (Some {| Gradio.name := u "/tmp/resume.txt" |}) []))
  = Some 75%Z.
Proof.
  exact (f_equal (fun out => fst (fst out))
           (widget_shows_the_mock Fixture.without_key Fixture.offline
              (Gradio.desk [] [] (list_byte_of_string "John Doe"))
              {| Gradio.name := u "/tmp/resume.txt" |} (u "John Doe") []
              eq_refl eq_refl)).
Defined.

(** X17.  A result that [score_resume] returned is still refused by the
    widget when its feedback lacks one of the three keys: the widget shows
    no score and "Error processing resume: " followed by the first missing
    key in quotes, looked up in the order strengths, weaknesses,
    improvements. *)
Theorem widget_refuses_partial_feedback
  (environ : list (str * str)) (L : Libraries) (D : Gradio.Desktop)
  (f : Gradio.File) (resume_text : str) (log log' : list ChatRequest)
  (scored : ResumeScore) :
  Gradio.read_resume D (Gradio.name f) = Ok (Some resume_text) ->
  score_resume environ L resume_text log = (Ok scored, log') ->
  (dict_get (feedback scored) (u "strengths") = None ->
   Gradio.gradio_score_resume environ L D (Some f) log
   = ((None, u "Error processing resume: 'strengths'"), log'))
  /\ (forall s,
        Gradio.bullets D scored (u "strengths") = Ok s ->
        dict_get (feedback scored) (u "weaknesses") = None ->
        Gradio.gradio_score_resume environ L D (Some f) log
        = ((None, u "Error processing resume: 'weaknesses'"), log'))
  /\ (forall s w,
        Gradio.bullets D scored (u "strengths") = Ok s ->
        Gradio.bullets D scored (u "weaknesses") = Ok w ->
        dict_get (feedback scored) (u "improvements") = None ->
        Gradio.gradio_score_resume environ L D (Some f) log
        = ((None, u "Error processing resume: 'improvements'"), log')).
Proof.
  intros Hr Hs; unfold Gradio.gradio_score_resume, Gradio.display.
  rewrite Hr, Hs; split; [|split].
  - intros H; rewrite (bullets_missing D scored _ H); reflexivity.
  - intros s Hb H; rewrite Hb, (bullets_missing D scored _ H); reflexivity.
  - intros s w Hb Hw H; rewrite Hb, Hw, (bullets_missing D scored _ H); reflexivity.
Qed.

Lemma widget_refuses_partial_feedback_witness :
  Gradio.gradio_score_resume Fixture.with_key
    (Fixture.answering Fixture.text_partial Fixture.payload_partial)
    (Gradio.desk [] [] (list_byte_of_string "John Doe"))
    (Some {| Gradio.name := u "/tmp/resume.txt" |}) []
  = ((None, u "Error processing resume: 'weaknesses'"), [chat_request (u "John Doe")]).
Proof.
  exact (proj1 (proj2
           (widget_refuses_partial_feedback Fixture.with_key
              (Fixture.answering Fixture.text_partial Fixture.payload_partial)
              (Gradio.desk [] [] (list_byte_of_string "John Doe"))
              {| Gradio.name := u "/tmp/resume.txt" |} (u "John Doe") []
              [chat_request (u "John Doe")]
              {| score := 82;
                 feedback := [ (u "strengths", JList [JStr (u "a")]) ] |}
              eq_refl eq_refl))
           (u "- a") eq_refl eq_refl).
Defined.

(** X18.  How the widget lists a feedback value.  A list of strings gives
    one line "- item" per item, separated by line feeds, and the empty list
    gives the empty text.  A single string in place of a list is not
    refused: it is listed one character per line.  A number cannot be
    listed: the [TypeError] of the iteration is raised. *)
Theorem bullets_by_kind_of_value
  (D : Gradio.Desktop) (scored : ResumeScore) (key : str) :
  (forall l,
     dict_get (feedback scored) key = Some (JList (map JStr l)) ->
     Gradio.bullets D scored key
     = Ok (join [nl] (map (fun s => u "- " ++ s) l)))
  /\ (dict_get (feedback scored) key = Some (JList []) ->
      Gradio.bullets D scored key = Ok [])
  /\ (forall s,
        dict_get (feedback scored) key = Some (JStr s) ->
        Gradio.bullets D scored key
        = Ok (join [nl] (map (fun c => u "- " ++ [c]) s)))
  /\ (forall z,
        dict_get (feedback scored) key = Some (JInt z) ->
        Gradio.bullets D scored key
        = Raise (Json.TypeError "'int' object is not iterable")).
Proof.
  split; [|split; [|split]].
  - intros l H; exact (bullets_strings D scored key l H).
  - intros H; exact (bullets_strings D scored key [] H).
  - intros s H; unfold Gradio.bullets; cbn [getitem]; rewrite H.
    cbn [bind Gradio.iter]; rewrite map_map; do 2 f_equal.
    apply map_ext; intros c; rewrite Gradio.format_value_str; reflexivity.
  - intros z H; unfold Gradio.bullets; cbn [getitem]; rewrite H; reflexivity.
Qed.

Lemma bullets_by_kind_of_value_witness :
  Gradio.bullets (Gradio.desk [] [] [])
    {| score := 1; feedback := [(u "strengths", JStr (u "ab"))] |} (u "strengths")
  = Ok (u "- a" ++ [nl] ++ u "- b").
Proof.
  exact (proj1 (proj2 (proj2
           (bullets_by_kind_of_value (Gradio.desk [] [] [])
              {| score := 1; feedback := [(u "strengths", JStr (u "ab"))] |}
              (u "strengths"))))
           (u "ab") eq_refl).
Defined.

(** X19.  The widget shows a score only when everything went through: a
    file was given and read, [score_resume] returned a result for its text,
    the score shown is that result's, and each of the three feedback keys
    is present with a value that can be iterated.  In every other case the
    score is empty. *)
Theorem widget_score_means_success
  (environ : list (str * str)) (L : Libraries) (D : Gradio.Desktop)
  (file : option Gradio.File) (log : list ChatRequest) (n : Z) :
  fst (fst (Gradio.gradio_score_resume environ L D file log)) = Some n ->
  exists f resume_text scored,
    file = Some f
    /\ Gradio.read_resume D (Gradio.name f) = Ok (Some resume_text)
    /\ fst (score_resume environ L resume_text log) = Ok scored
    /\ score scored = n
    /\ forall key,
         In key [u "strengths"; u "weaknesses"; u "improvements"] ->
         exists value items,
           dict_get (feedback scored) key = Some value
           /\ Gradio.iter value = Ok items.
Proof.
  unfold Gradio.gradio_score_resume.
  destruct file as [f|]; [|discriminate].
  destruct (Gradio.read_resume D (Gradio.name f)) as [[t|]|e] eqn:Hr;
    try discriminate.
  destruct (score_resume environ L t log) as [[scored|e] log'] eqn:Hs;
    [|discriminate].
  unfold Gradio.display.
  destruct (Gradio.bullets D scored (u "strengths")) as [s|e] eqn:H1;
    [|discriminate].
  destruct (Gradio.bullets D scored (u "weaknesses")) as [w|e] eqn:H2;
    [|discriminate].
  destruct (Gradio.bullets D scored (u "improvements")) as [i|e] eqn:H3;
    [|discriminate].
  cbn [bind fst]; intros E; apply Utf8Facts.some_eq in E.
  exists f, t, scored.
  split; [reflexivity|]; split; [exact Hr|].
  split; [rewrite Hs; reflexivity|]; split; [exact E|].
  intros key [<- | [<- | [<- | []]]]; eapply bullets_ok; eassumption.
Qed.

Lemma widget_score_means_success_witness :
  exists f resume_text scored,
    Some {| Gradio.name := u "/tmp/resume.txt" |} = Some f
    /\ Gradio.read_resume (Gradio.desk [] [] (list_byte_of_string "John Doe"))
         (Gradio.name f) = Ok (Some resume_text)
    /\ fst (score_resume Fixture.without_key Fixture.offline resume_text [])
       = Ok scored
    /\ score scored = 75%Z
    /\ forall key,
         In key [u "strengths"; u "weaknesses"; u "improvements"] ->
         exists value items,
           dict_get (feedback scored) key = Some value
           /\ Gradio.iter value = Ok items.
Proof.
  exact (widget_score_means_success Fixture.without_key Fixture.offline
           (Gradio.desk [] [] (list_byte_of_string "John Doe"))
           (Some {| Gradio.name := u "/tmp/resume.txt" |}) [] 75%Z eq_refl).
Defined.

(** X20.  For a [txt] file with well-formed UTF-8 content the widget reads
    the decoded text with every carriage return, alone or before a line
    feed, turned into one line feed: the text it scores holds no carriage
    return and is no longer than the decoded one.  When the content holds
    no carriage return it is the very text the endpoint extracts from the
    same bytes. *)
Theorem widget_reads_text_without_carriage_returns
  (L : Libraries) (D : Gradio.Desktop) (path : str) (content : bytes) (s : str) :
  file_extension_of path = u "txt" ->
  Gradio.open_text D path = Ok content ->
  Utf8.decode content = Some s ->
  Gradio.read_resume D path = Ok (Some (Gradio.universal_newlines s))
  /\ ~ In Gradio.cr (Gradio.universal_newlines s)
  /\ List.length (Gradio.universal_newlines s) <= List.length s
  /\ (~ In Gradio.cr s ->
      Ok (Gradio.universal_newlines s)
      = extract_text_from_resume L {| filename := path; read := content |}).
Proof.
  intros Hext Hopen Hdec; split; [|split; [|split]].
  - unfold Gradio.read_resume; cbn zeta; rewrite Hext.
    change (str_eqb (u "txt") (u "pdf")) with false.
    change (existsb (str_eqb (u "txt")) [u "docx"; u "doc"]) with false.
    change (str_eqb (u "txt") (u "txt")) with true.
    cbv iota; unfold Gradio.read_text; rewrite Hopen; cbn [bind].
    rewrite Hdec; reflexivity.
  - apply universal_newlines_no_cr.
  - apply universal_newlines_length.
  - intros Hcr; rewrite (universal_newlines_id s Hcr).
    rewrite dispatch_txt by exact Hext.
    unfold propagate, try_except, bytes_decode; cbn [read].
    rewrite Hdec; reflexivity.
Qed.

Lemma widget_reads_text_without_carriage_returns_witness :
  Gradio.read_resume
    (Gradio.desk [] [] [Byte.x61; Byte.x0d; Byte.x0a; Byte.x62; Byte.x0d])
    (u "/tmp/cv.txt")
  = Ok (Some [97; 10; 98; 10]%N).
Proof.
  exact (proj1 (widget_reads_text_without_carriage_returns Fixture.offline
                  (Gradio.desk [] [] [Byte.x61; Byte.x0d; Byte.x0a; Byte.x62; Byte.x0d])
                  (u "/tmp/cv.txt")
                  [Byte.x61; Byte.x0d; Byte.x0a; Byte.x62; Byte.x0d]
                  [97; 13; 10; 98; 13]%N eq_refl eq_refl eq_refl)).
Defined.

(** X21.  When the call of [chat.completions.create] fails under the
    widget, the user sees no score and a message wrapped twice: "Error
    processing resume: " followed by [str] of the [HTTPException] 500 whose
    detail is "Error scoring resume: " followed by the cause.  The call was
    made once by [app.py]; how often the client tried on the wire is not
    counted. *)
Theorem widget_wraps_scoring_errors
  (environ : list (str * str)) (L : Libraries) (D : Gradio.Desktop)
  (f : Gradio.File) (resume_text : str) (log : list ChatRequest) (e : PyExc) :
  Gradio.read_resume D (Gradio.name f) = Ok (Some resume_text) ->
  live environ ->
  chat_completions_create L (chat_request resume_text) = Raise e ->
  Gradio.gradio_score_resume environ L D (Some f) log
  = ((None,
      u "Error processing resume: "
      ++ Gradio.http_exception_str D 500
           (u "Error scoring resume: " ++ exc_str e)),
     log ++ [chat_request resume_text]).
Proof.
  intros Hr Hlive He; unfold Gradio.gradio_score_resume; rewrite Hr.
  rewrite (score_resume_live_run environ L resume_text log Hlive), He.
  reflexivity.
Qed.

Lemma widget_wraps_scoring_errors_witness :
  Gradio.gradio_score_resume Fixture.with_key Fixture.offline
    (Gradio.desk [] [] (list_byte_of_string "John Doe"))
    (Some {| Gradio.name := u "/tmp/resume.txt" |}) []
  = ((None,
      u "Error processing resume: 500: Error scoring resume: Connection error."),
     [chat_request (u "John Doe")]).
Proof.
  exact (widget_wraps_scoring_errors Fixture.with_key Fixture.offline
           (Gradio.desk [] [] (list_byte_of_string "John Doe"))
           {| Gradio.name := u "/tmp/resume.txt" |} (u "John Doe") []
           Fixture.APIConnectionError eq_refl eq_refl eq_refl).
Defined.
